(** * MCP tool server: handlers of [src/index.ts] and [app/api/[transport]/route.ts]

    A shallow embedding of the six tool handlers (greet, calc, now, geocode,
    get-weather, generate-image), of their input schemas and of the dispatch
    contract, followed by the properties the specification states about them.

    Conventions of the embedding.
    - A JavaScript [number] is an IEEE binary64 value: Rocq's primitive [float].
      Template literals apply [Number::toString] (ECMA-262 6.1.6.1.20), which
      is written out below as [Number_toString].
    - A JavaScript string is the sequence of the bytes of its UTF-8 encoding.
    - The outside world a handler can observe (the clock, [process.env], the
      three upstream services) is an explicit [World] value; a handler is a
      computation in the monad [Eff], which threads the log of outbound calls
      and either returns a value or throws.
    - The body of an upstream response has the TypeScript type the handler casts
      it to ([as Array<...>], [as {...}]); the arrays inside it may have any
      lengths. *)

From Stdlib Require Import ZArith NArith List String Ascii Bool Lia.
From Stdlib Require Import DecimalString.
From Stdlib Require Import Floats.PrimFloat Floats.SpecFloat Floats.FloatOps.
Import ListNotations.

#[local] Open Scope string_scope.
#[local] Open Scope Z_scope.

(** ** Strings *)

Module Str.

(** The line feed of ['\n']. *)
Definition LF : string := String (ascii_of_nat 10) EmptyString.

(** [Array.prototype.join] on an array of strings. *)
Fixpoint join (sep : string) (parts : list string) : string :=
  match parts with
  | [] => EmptyString
  | [s] => s
  | s :: rest => s ++ sep ++ join sep rest
  end.

(** [n] copies of the character [c]. *)
Fixpoint repeat_char (c : ascii) (n : nat) : string :=
  match n with
  | O => EmptyString
  | S n' => String c (repeat_char c n')
  end.

(** The decimal numeral of a natural number, without sign or padding. *)
Definition decimal (n : N) : string := NilEmpty.string_of_uint (N.to_uint n).

(** The first [n] characters of [s], and what follows them. *)
Definition take (n : nat) (s : string) : string := substring 0 n s.
Definition drop (n : nat) (s : string) : string := substring n (String.length s - n) s.

(** [starts_with p s]: [String.prototype.startsWith]. *)
Definition starts_with (p s : string) : bool := String.prefix p s.

(** [contains p s]: [p] occurs in [s] ([String.prototype.includes]). *)
Fixpoint contains (p s : string) : bool :=
  String.prefix p s ||
  match s with
  | EmptyString => false
  | String _ s' => contains p s'
  end.

(** The lines of a text: the pieces between line feeds. *)
Fixpoint lines_from (acc s : string) : list string :=
  match s with
  | EmptyString => [acc]
  | String c s' =>
      if Ascii.eqb c (ascii_of_nat 10)
      then acc :: lines_from EmptyString s'
      else lines_from (acc ++ String c EmptyString) s'
  end.

Definition lines (s : string) : list string := lines_from EmptyString s.

End Str.

(** ** Numbers

    [Number::toString(x)] in radix 10.  For a finite non-zero [x = m * 2^e] the
    standard asks for integers [n], [k], [s] with [10^(k-1) <= s < 10^k], such
    that [s * 10^(n-k)] rounds to [x] and [k] is as small as possible; among
    several such [s] the one closest to [x] is taken. *)

Module JsNumber.

Section Shortest.

(** The double is [m * 2^e] with [m > 0], as [Prim2SF] returns it. *)
Variables (m e : Z).

(** In units of [2^(e-2)]: the double itself and the ends of the interval
    of reals that round to it.  Below a power of two the gap to the
    predecessor is half the gap to the successor. *)
Definition mid : Z := 4 * m.
Definition low : Z := if (m =? 2 ^ 52) && (-1074 <? e) then 4 * m - 1 else 4 * m - 2.
Definition high : Z := 4 * m + 2.

(** [s * 10^p] and [b * 2^(e-2)] brought to a common denominator. *)
Definition scale_dec (s p : Z) : Z := s * 10 ^ Z.max p 0 * 2 ^ Z.max (2 - e) 0.
Definition scale_bin (b p : Z) : Z := b * 2 ^ Z.max (e - 2) 0 * 10 ^ Z.max (- p) 0.

(** [s * 10^p] rounds to the double (ties go to the even mantissa). *)
Definition rounds_here (s p : Z) : bool :=
  let v := scale_dec s p in
  if Z.even m
  then (scale_bin low p <=? v) && (v <=? scale_bin high p)
  else (scale_bin low p <? v) && (v <? scale_bin high p).

(** [floor (x / 10^p)]. *)
Definition floor_at (p : Z) : Z := scale_bin mid p / scale_dec 1 p.

(** The least [n] with [x < 10^n], searched upwards from a lower estimate
    taken from the binary exponent ([1233/4096] approximates [log10 2]). *)
Fixpoint magnitude_from (fuel : nat) (n : Z) : Z :=
  match fuel with
  | O => n
  | S fuel' => if floor_at n =? 0 then n else magnitude_from fuel' (n + 1)
  end.

Definition magnitude : Z :=
  magnitude_from 8 ((Z.log2 m + 1 + e) * 1233 / 4096 - 2).

(** The candidate with [k] digits, if one rounds to the double. *)
Definition candidate (n0 k : Z) : option (Z * Z) :=
  let p := n0 - k in
  let dn := floor_at p in
  let up := dn + 1 in
  match rounds_here dn p, rounds_here up p with
  | true, true =>
      let below := scale_bin mid p - scale_dec dn p in
      let above := scale_dec up p - scale_bin mid p in
      if below <? above then Some (dn, p)
      else if above <? below then Some (up, p)
      else if Z.even dn then Some (dn, p) else Some (up, p)
  | true, false => Some (dn, p)
  | false, true => Some (up, p)
  | false, false => None
  end.

Fixpoint shortest_from (fuel : nat) (n0 k : Z) : Z * Z :=
  match fuel with
  | O => (floor_at (n0 - k), n0 - k)
  | S fuel' =>
      match candidate n0 k with
      | Some sp => sp
      | None => shortest_from fuel' n0 (k + 1)
      end
  end.

(** Seventeen significant digits always identify a double. *)
Definition shortest : Z * Z := shortest_from 17 magnitude 1.

End Shortest.

(** Trailing zeros belong to the exponent, not to the digits. *)
Fixpoint strip_zeros (fuel : nat) (s p : Z) : Z * Z :=
  match fuel with
  | O => (s, p)
  | S fuel' => if (s mod 10 =? 0) && (0 <? s) then strip_zeros fuel' (s / 10) (p + 1) else (s, p)
  end.

(** Steps 6 to 10 of [Number::toString]: the digits [ds] of [s] and the
    position [n] of the decimal point. *)
Definition layout (ds : string) (n : Z) : string :=
  let k := Z.of_nat (String.length ds) in
  if (k <=? n) && (n <=? 21) then
    ds ++ Str.repeat_char "0" (Z.to_nat (n - k))
  else if (0 <? n) && (n <=? 21) then
    Str.take (Z.to_nat n) ds ++ "." ++ Str.drop (Z.to_nat n) ds
  else if (-6 <? n) && (n <=? 0) then
    "0." ++ Str.repeat_char "0" (Z.to_nat (- n)) ++ ds
  else
    let ex := n - 1 in
    let sign := if ex <? 0 then "-" else "+" in
    let mant := if k =? 1 then ds else Str.take 1 ds ++ "." ++ Str.drop 1 ds in
    mant ++ "e" ++ sign ++ Str.decimal (Z.to_N (Z.abs ex)).

Definition finite_toString (m : positive) (e : Z) : string :=
  let '(s0, p0) := shortest (Zpos m) e in
  let '(s, p) := strip_zeros 20 s0 p0 in
  let ds := Str.decimal (Z.to_N s) in
  layout ds (p + Z.of_nat (String.length ds)).

Definition Number_toString (x : float) : string :=
  match Prim2SF x with
  | S754_nan => "NaN"
  | S754_zero _ => "0"
  | S754_infinity false => "Infinity"
  | S754_infinity true => "-Infinity"
  | S754_finite false m e => finite_toString m e
  | S754_finite true m e => "-" ++ finite_toString m e
  end.

End JsNumber.

(** ** Library functions the handlers call *)

(** [encodeURIComponent]: every byte of the UTF-8 encoding is escaped as [%XX]
    except the unreserved characters [A-Z a-z 0-9 - _ . ! ~ * ' ( )].  (The
    [URIError] of the standard is raised for lone surrogates only, which have
    no UTF-8 encoding.) *)
Module Uri.

Definition unreserved (c : ascii) : bool :=
  let n := N_of_ascii c in
  ((65 <=? n) && (n <=? 90) || (97 <=? n) && (n <=? 122) || (48 <=? n) && (n <=? 57)
   || Str.contains (String c EmptyString) "-_.!~*'()")%N.

Definition hex_digit (n : N) : ascii :=
  match String.get (N.to_nat n) "0123456789ABCDEF" with
  | Some c => c
  | None => "0"%char
  end.

Definition escape (c : ascii) : string :=
  let n := N_of_ascii c in
  String "%" (String (hex_digit (n / 16)) (String (hex_digit (n mod 16)) EmptyString)).

Fixpoint encodeURIComponent (s : string) : string :=
  match s with
  | EmptyString => EmptyString
  | String c s' =>
      (if unreserved c then String c EmptyString else escape c) ++ encodeURIComponent s'
  end.

End Uri.

(** [Buffer.from(bytes).toString('base64')]: RFC 4648 with padding. *)
Module Base64.

Definition alphabet : string :=
  "ABCDEFGHIJKLMNOPQRSTUVWXYZabcdefghijklmnopqrstuvwxyz0123456789+/".

Definition sextet (n : N) : ascii :=
  match String.get (N.to_nat n) alphabet with
  | Some c => c
  | None => "="%char
  end.

Definition chars (cs : list ascii) : string := string_of_list_ascii cs.

Fixpoint encode (bytes : list Byte.byte) : string :=
  match bytes with
  | [] => EmptyString
  | [a] =>
      let x := Byte.to_N a in
      chars [sextet (x / 4); sextet (x mod 4 * 16); "="; "="]%N%char
  | [a; b] =>
      let x := Byte.to_N a in
      let y := Byte.to_N b in
      chars [sextet (x / 4); sextet (x mod 4 * 16 + y / 16); sextet (y mod 16 * 4); "="]%N%char
  | a :: b :: c :: rest =>
      let x := Byte.to_N a in
      let y := Byte.to_N b in
      let z := Byte.to_N c in
      chars [sextet (x / 4); sextet (x mod 4 * 16 + y / 16);
             sextet (y mod 16 * 4 + z / 64); sextet (z mod 64)]%N
      ++ encode rest
  end.

End Base64.

(** [Date.prototype.toLocaleString('ko-KR', { timeZone, year: 'numeric',
    month: '2-digit', day: '2-digit', hour: '2-digit', minute: '2-digit',
    second: '2-digit', hour12: false })].

    The time zone data and the hour cycle that [hour12: false] resolves to
    belong to the runtime (see [Host] below).  The calendar arithmetic is the
    proleptic Gregorian one; the ko-KR pattern for these fields is
    [y. MM. dd. HH:mm:ss]. *)
Module JsDate.

(** [h23] counts midnight as hour 0, [h24] as hour 24. *)
Inductive HourCycle : Type := h23 | h24.

Record Fields : Type := {
  year : Z; month : Z; day : Z;
  hour : Z; minute : Z; second : Z
}.

(** Year, month and day of the day number [z] (days since 1970-01-01). *)
Definition civil_of_days (z : Z) : Z * Z * Z :=
  let z' := z + 719468 in
  let era := z' / 146097 in
  let doe := z' mod 146097 in
  let yoe := (doe - doe / 1460 + doe / 36524 - doe / 146096) / 365 in
  let doy := doe - (365 * yoe + yoe / 4 - yoe / 100) in
  let mp := (5 * doy + 2) / 153 in
  let d := doy - (153 * mp + 2) / 5 + 1 in
  let m := if mp <? 10 then mp + 3 else mp - 9 in
  let y := yoe + era * 400 in
  (if m <=? 2 then y + 1 else y, m, d).

(** The wall-clock fields of the instant [local_ms] (milliseconds since the
    epoch, already shifted by the zone's offset). *)
Definition fields_of (cycle : HourCycle) (local_ms : Z) : Fields :=
  let secs := local_ms / 1000 in
  let '(y, m, d) := civil_of_days (secs / 86400) in
  let sod := secs mod 86400 in
  let h := sod / 3600 in
  {| year := y; month := m; day := d;
     hour := match cycle with h23 => h | h24 => if h =? 0 then 24 else h end;
     minute := sod mod 3600 / 60;
     second := sod mod 60 |}.

Definition digit (d : Z) : ascii := ascii_of_nat (48 + Z.to_nat d).

(** A ['2-digit'] field. *)
Definition pad2 (n : Z) : string :=
  String (digit (n / 10)) (String (digit (n mod 10)) EmptyString).

(** A ['numeric'] year. *)
Definition numeric (n : Z) : string := Str.decimal (Z.to_N n).

Definition render (f : Fields) : string :=
  numeric (year f) ++ ". " ++ pad2 (month f) ++ ". " ++ pad2 (day f) ++ ". "
  ++ pad2 (hour f) ++ ":" ++ pad2 (minute f) ++ ":" ++ pad2 (second f).

End JsDate.

(** ** Data model: what a handler returns *)

(** [{ type: 'text', text }] or [{ type: 'image', data, mimeType }]. *)
Inductive ContentItem : Type :=
| TextItem (text : string)
| ImageItem (data : string) (mimeType : string).

(** The object a handler returns.  [structuredContent], when present, is
    [{ content: [...] }]; only its [content] array is recorded. *)
Record ToolResult : Type := {
  content : list ContentItem;
  structuredContent : option (list ContentItem)
}.

(** The two entry points register the same six handlers.  In [src/index.ts]
    (stdio transport) the successful text results also carry
    [structuredContent]; in [app/api/[transport]/route.ts] (HTTP route) no
    result does. *)
Inductive Entry : Type := StdioServer | HttpRoute.

(** [{ content: [{ type: 'text', text }] }]: every error return, in both files. *)
Definition text_only (text : string) : ToolResult :=
  {| content := [TextItem text]; structuredContent := None |}.

(** The return statement of a successful text result. *)
Definition text_result (entry : Entry) (text : string) : ToolResult :=
  match entry with
  | StdioServer => {| content := [TextItem text]; structuredContent := Some [TextItem text] |}
  | HttpRoute => text_only text
  end.

(** [{ content: [{ type: 'image', data, mimeType: 'image/png' }] }]. *)
Definition image_result (data : string) : ToolResult :=
  {| content := [ImageItem data "image/png"]; structuredContent := None |}.

(** ** Effects *)

(** What a [throw] (or a rejected promise) carries: an [Error] object with its
    [message], or some value that is not an [Error]. *)
Inductive Thrown : Type :=
| ErrorObject (message : string)
| OtherValue.

(** How a computation ends. *)
Inductive Completion (A : Type) : Type :=
| Returned (a : A)
| Threw (e : Thrown).

Arguments Returned {A} a.
Arguments Threw {A} e.

(** An outbound HTTP request: [fetch(url, { headers })]. *)
Record Request : Type := {
  url : string;
  headers : list (string * string)
}.

(** A [Response]: its status and what [response.json()] gives, already at the
    type the handler casts it to. *)
Record Response (A : Type) : Type := {
  status : N;
  json : Completion A
}.

Arguments status {A} r.
Arguments json {A} r.

(** [response.ok]: the status is in the range 200-299. *)
Definition ok {A : Type} (r : Response A) : bool :=
  ((200 <=? status r) && (status r <=? 299))%N.

(** One record of the geocoding service. *)
Record GeoRecord : Type := {
  display_name : string;
  lat : string;
  lon : string
}.

(** The body of the forecast service: [data.current], [data.current_units],
    [data.daily], [data.daily_units] and [data.timezone]. *)
Record Current : Type := {
  c_time : string;
  c_temperature_2m : float;
  c_relative_humidity_2m : float;
  c_apparent_temperature : float;
  c_weather_code : float;
  c_wind_speed_10m : float;
  c_wind_direction_10m : float;
  c_precipitation : float
}.

Record CurrentUnits : Type := {
  cu_temperature_2m : string;
  cu_relative_humidity_2m : string;
  cu_apparent_temperature : string;
  cu_wind_speed_10m : string;
  cu_precipitation : string
}.

Record Daily : Type := {
  d_time : list string;
  d_weather_code : list float;
  d_temperature_2m_max : list float;
  d_temperature_2m_min : list float;
  d_precipitation_sum : list float;
  d_precipitation_probability_max : list float;
  d_wind_speed_10m_max : list float
}.

Record DailyUnits : Type := {
  du_temperature_2m_max : string;
  du_precipitation_sum : string;
  du_wind_speed_10m_max : string
}.

Record Forecast : Type := {
  timezone : string;
  current : Current;
  current_units : CurrentUnits;
  daily : Daily;
  daily_units : DailyUnits
}.

(** The argument of [client.textToImage] together with the token the client
    was built with, and the [Blob] it resolves to. *)
Record TextToImage : Type := {
  accessToken : string;
  provider : string;
  model : string;
  inputs : string;
  num_inference_steps : float
}.

Record Blob : Type := {
  arrayBuffer : Completion (list Byte.byte)
}.

(** An outbound call, as logged. *)
Inductive Call : Type :=
| FetchCall (request : Request)
| InferenceCall (request : TextToImage).

(** Everything outside the handler that one invocation can observe.  The
    upstream services are functions of the request, as a mock is. *)
Record World : Type := {
  clock : Z;                                    (* new Date(): ms since the epoch *)
  HF_TOKEN : option string;                     (* process.env.HF_TOKEN *)
  nominatim : Request -> Completion (Response (option (list GeoRecord)));
  open_meteo : Request -> Completion (Response Forecast);
  inference : TextToImage -> Completion Blob
}.

(** What the runtime fixes for the whole process: the time zone data (the
    offset in milliseconds of a known zone at an instant) and the hour cycle
    of the ko-KR formatter. *)
Record Host : Type := {
  time_zone : string -> option (Z -> Z);
  hour_cycle : JsDate.HourCycle
}.

(** A computation reads the world, logs its outbound calls and completes. *)
Definition Eff (A : Type) : Type := World -> list Call * Completion A.

Definition ret {A : Type} (a : A) : Eff A :=
  fun _ => ([], Returned a).

Definition throw {A : Type} (e : Thrown) : Eff A :=
  fun _ => ([], Threw e).

Definition bind {A B : Type} (c : Eff A) (k : A -> Eff B) : Eff B :=
  fun w =>
    match c w with
    | (log, Returned a) => let '(log', r) := k a w in ((log ++ log')%list, r)
    | (log, Threw e) => (log, Threw e)
    end.

(** [try { body } catch (error) { handler }]. *)
Definition try_catch {A : Type} (body : Eff A) (handler : Thrown -> Eff A) : Eff A :=
  fun w =>
    match body w with
    | (log, Returned a) => (log, Returned a)
    | (log, Threw e) => let '(log', r) := handler e w in ((log ++ log')%list, r)
    end.

(** [await p] for a promise that is already settled. *)
Definition await {A : Type} (p : Completion A) : Eff A :=
  fun _ => ([], p).

Declare Scope eff_scope.
Delimit Scope eff_scope with eff.
Notation "x <- c ;; k" := (bind c (fun x => k))
  (at level 61, c at next level, right associativity) : eff_scope.
Notation "c ;;; k" := (bind c (fun _ => k))
  (at level 61, right associativity) : eff_scope.

(** [new Date()]. *)
Definition new_Date : Eff Z :=
  fun w => ([], Returned (clock w)).

(** [process.env.HF_TOKEN]. *)
Definition env_HF_TOKEN : Eff (option string) :=
  fun w => ([], Returned (HF_TOKEN w)).

(** [fetch(url, { headers })] against the geocoding and the forecast service. *)
Definition fetch_nominatim (rq : Request) : Eff (Response (option (list GeoRecord))) :=
  fun w => ([FetchCall rq], nominatim w rq).

Definition fetch_open_meteo (rq : Request) : Eff (Response Forecast) :=
  fun w => ([FetchCall rq], open_meteo w rq).

(** [new InferenceClient(token).textToImage(args, { outputType: 'blob' })]. *)
Definition textToImage (rq : TextToImage) : Eff Blob :=
  fun w => ([InferenceCall rq], inference w rq).

(** [error instanceof Error ? error.message : '알 수 없는 오류']. *)
Definition message_of (error : Thrown) : string :=
  match error with
  | ErrorObject message => message
  | OtherValue => "알 수 없는 오류"
  end.

(** A value read from an array: [undefined] past the end. *)
Definition at_index {A : Type} (xs : list A) (i : nat) : option A := nth_error xs i.

(** A template literal hole holding [string | undefined] or [number | undefined]. *)
Definition str_hole (v : option string) : string :=
  match v with
  | Some s => s
  | None => "undefined"
  end.

Definition num_hole (v : option float) : string :=
  match v with
  | Some x => JsNumber.Number_toString x
  | None => "undefined"
  end.

(** Own-property lookup in an object literal: the first entry with that key. *)
Fixpoint property (key : string) (object : list (string * string)) : option string :=
  match object with
  | [] => None
  | (k, v) :: rest => if String.eqb k key then Some v else property key rest
  end.

(** ** Validated handler inputs *)

(** [z.enum(['ko', 'en', 'ja', 'zh', 'es', 'fr', 'de'])]. *)
Inductive Language : Type := ko | en | ja | zh | es | fr | de.

Definition language_code (l : Language) : string :=
  match l with
  | ko => "ko" | en => "en" | ja => "ja" | zh => "zh"
  | es => "es" | fr => "fr" | de => "de"
  end.

(** [z.enum(['+', '-', '*', '/'])]. *)
Inductive Operator : Type := Plus | Minus | Times | Divide.

Definition operator_symbol (o : Operator) : string :=
  match o with
  | Plus => "+" | Minus => "-" | Times => "*" | Divide => "/"
  end.

Record GreetArgs : Type := { greet_name : string; greet_language : Language }.
Record CalcArgs : Type := { calc_a : float; calc_b : float; calc_operator : Operator }.
Record NowArgs : Type := { now_timezone : string }.
Record GeocodeArgs : Type := { geocode_query : string }.
Record WeatherArgs : Type := {
  weather_latitude : float;
  weather_longitude : float;
  weather_forecast_days : float
}.
Record ImageArgs : Type := { image_prompt : string; image_num_inference_steps : float }.

(** ** The handlers *)

Section Handlers.

(** The file the handler is read from, and the runtime it runs on. *)
Variable entry : Entry.
Variable host : Host.

#[local] Open Scope eff_scope.

(** *** greet *)

Definition greetings (name : string) : list (string * string) :=
  [ ("ko", "안녕하세요, " ++ name ++ "님!");
    ("en", "Hey there, " ++ name ++ "! 👋 Nice to meet you!");
    ("ja", "こんにちは、" ++ name ++ "さん！");
    ("zh", "你好，" ++ name ++ "！");
    ("es", "¡Hola, " ++ name ++ "! ¿Qué tal?");
    ("fr", "Bonjour, " ++ name ++ " ! Enchanté(e) !");
    ("de", "Hallo, " ++ name ++ "! Freut mich!") ].

(** [a ?? b]. *)
Definition nullish {A : Type} (a b : option A) : option A :=
  match a with
  | Some _ => a
  | None => b
  end.

Definition greet (args : GreetArgs) : Eff ToolResult :=
  let greetings := greetings (greet_name args) in
  let greeting :=
    nullish (property (language_code (greet_language args)) greetings)
            (property "en" greetings) in
  ret (text_result entry (str_hole greeting)).

(** *** calc

    The [default: result = 0] branch of [route.ts] is not reachable from an
    [Operator]. *)

Definition calc (args : CalcArgs) : Eff ToolResult :=
  let a := calc_a args in
  let b := calc_b args in
  let operator := calc_operator args in
  let finish (result : float) : Eff ToolResult :=
    let text :=
      JsNumber.Number_toString a ++ " " ++ operator_symbol operator ++ " "
      ++ JsNumber.Number_toString b ++ " = " ++ JsNumber.Number_toString result in
    ret (text_result entry text) in
  match operator with
  | Plus => finish (a + b)%float
  | Minus => finish (a - b)%float
  | Times => finish (a * b)%float
  | Divide =>
      if (b =? 0)%float
      then ret (text_only "오류: 0으로 나눌 수 없습니다.")
      else finish (a / b)%float
  end.

(** *** now *)

(** [date.toLocaleString('ko-KR', { timeZone, ... })]: a [RangeError] for a
    zone the runtime does not know. *)
Definition toLocaleString (date : Z) (timeZone : string) : Eff string :=
  match time_zone host timeZone with
  | None => throw (ErrorObject ("Invalid time zone specified: " ++ timeZone))
  | Some offset =>
      ret (JsDate.render (JsDate.fields_of (hour_cycle host) (date + offset date)))
  end.

Definition now (args : NowArgs) : Eff ToolResult :=
  let timezone := now_timezone args in
  try_catch
    (now <- new_Date ;;
     formatted <- toLocaleString now timezone ;;
     let text := "[" ++ timezone ++ "] 현재 시간: " ++ formatted in
     ret (text_result entry text))
    (fun _ =>
       ret (text_only ("오류: '" ++ timezone ++ "'은(는) 유효하지 않은 타임존입니다. IANA 타임존 형식을 사용해주세요. (예: Asia/Seoul, America/New_York)"))).

(** *** geocode *)

Definition geocode_request (query : string) : Request :=
  {| url := "https://nominatim.openstreetmap.org/search?q="
            ++ Uri.encodeURIComponent query
            ++ "&format=json&limit=1&addressdetails=1";
     headers := [("User-Agent", "MCP-Geocode-Tool/1.0")] |}.

(** [if (!response.ok) throw new Error(`API 요청 실패: ${response.status}`)]. *)
Definition check_ok {A : Type} (response : Response A) : Eff unit :=
  if negb (ok response)
  then throw (ErrorObject ("API 요청 실패: " ++ Str.decimal (status response)))
  else ret tt.

Definition geocode (args : GeocodeArgs) : Eff ToolResult :=
  let query := geocode_query args in
  try_catch
    (response <- fetch_nominatim (geocode_request query) ;;
     check_ok response ;;;
     data <- await (json response) ;;
     match data with
     | None | Some [] =>
         ret (text_only ("'" ++ query ++ "'에 대한 검색 결과가 없습니다."))
     | Some (result :: _) =>
         let text :=
           Str.join Str.LF
             [ "📍 " ++ display_name result;
               "위도(lat): " ++ lat result;
               "경도(lon): " ++ lon result ] in
         ret (text_result entry text)
     end)
    (fun error =>
       let message := message_of error in
       ret (text_only ("오류: 지오코딩 실패 - " ++ message))).

(** *** get-weather *)

(** The keys of an object literal are strings: [0: '...'] is the property
    ["0"].  No number renders as the name of a property inherited from
    [Object.prototype], so own properties are all a code can find. *)
Definition weatherCodes : list (string * string) :=
  [
    ("0", "맑음 ☀️");
    ("1", "대체로 맑음 🌤️");
    ("2", "부분적으로 흐림 ⛅");
    ("3", "흐림 ☁️");
    ("45", "안개 🌫️");
    ("48", "서리 안개 🌫️");
    ("51", "가벼운 이슬비 🌦️");
    ("53", "이슬비 🌦️");
    ("55", "강한 이슬비 🌦️");
    ("56", "가벼운 착빙성 이슬비 🌧️");
    ("57", "강한 착빙성 이슬비 🌧️");
    ("61", "약한 비 🌧️");
    ("63", "비 🌧️");
    ("65", "강한 비 🌧️");
    ("66", "가벼운 착빙성 비 🌧️");
    ("67", "강한 착빙성 비 🌧️");
    ("71", "약한 눈 🌨️");
    ("73", "눈 🌨️");
    ("75", "강한 눈 🌨️");
    ("77", "싸락눈 🌨️");
    ("80", "약한 소나기 🌦️");
    ("81", "소나기 🌦️");
    ("82", "강한 소나기 🌦️");
    ("85", "약한 눈소나기 🌨️");
    ("86", "강한 눈소나기 🌨️");
    ("95", "뇌우 ⛈️");
    ("96", "약한 우박 뇌우 ⛈️");
    ("99", "강한 우박 뇌우 ⛈️") ].

(** [weatherCodes[code] ?? `알 수 없음 (${code})`].  The argument is
    [undefined] when it was read past the end of an array. *)
Definition getWeatherDesc (code : option float) : string :=
  match property (num_hole code) weatherCodes with
  | Some description => description
  | None => "알 수 없음 (" ++ num_hole code ++ ")"
  end.

Definition currentParams : string :=
  Str.join ","
    [ "temperature_2m"; "relative_humidity_2m"; "apparent_temperature";
      "weather_code"; "wind_speed_10m"; "wind_direction_10m"; "precipitation" ].

Definition dailyParams : string :=
  Str.join ","
    [ "weather_code"; "temperature_2m_max"; "temperature_2m_min";
      "precipitation_sum"; "precipitation_probability_max"; "wind_speed_10m_max" ].

Definition weather_request (args : WeatherArgs) : Request :=
  {| url := "https://api.open-meteo.com/v1/forecast"
            ++ "?latitude=" ++ JsNumber.Number_toString (weather_latitude args)
            ++ "&longitude=" ++ JsNumber.Number_toString (weather_longitude args)
            ++ "&current=" ++ currentParams
            ++ "&daily=" ++ dailyParams
            ++ "&forecast_days=" ++ JsNumber.Number_toString (weather_forecast_days args)
            ++ "&timezone=auto";
     headers := [] |}.

(** The initial value of [lines]: header, current block, forecast title. *)
Definition report_head (args : WeatherArgs) (data : Forecast) : list string :=
  let num := JsNumber.Number_toString in
  let c := current data in
  let cu := current_units data in
  [ "📍 좌표: " ++ num (weather_latitude args) ++ ", " ++ num (weather_longitude args)
      ++ " (" ++ timezone data ++ ")";
    EmptyString;
    "🌡️ 현재 날씨 (" ++ c_time c ++ ")";
    "  상태: " ++ getWeatherDesc (Some (c_weather_code c));
    "  기온: " ++ num (c_temperature_2m c) ++ cu_temperature_2m cu
      ++ " (체감 " ++ num (c_apparent_temperature c) ++ cu_apparent_temperature cu ++ ")";
    "  습도: " ++ num (c_relative_humidity_2m c) ++ cu_relative_humidity_2m cu;
    "  바람: " ++ num (c_wind_speed_10m c) ++ cu_wind_speed_10m cu
      ++ " (" ++ num (c_wind_direction_10m c) ++ "°)";
    "  강수량: " ++ num (c_precipitation c) ++ cu_precipitation cu;
    EmptyString;
    "📅 " ++ num (weather_forecast_days args) ++ "일 예보:" ].

(** The line pushed for index [i] of the daily arrays. *)
Definition daily_line (d : Daily) (du : DailyUnits) (i : nat) : string :=
  "  " ++ str_hole (at_index (d_time d) i)
  ++ " | " ++ getWeatherDesc (at_index (d_weather_code d) i)
  ++ " | " ++ num_hole (at_index (d_temperature_2m_min d) i)
  ++ "~" ++ num_hole (at_index (d_temperature_2m_max d) i) ++ du_temperature_2m_max du
  ++ " | 강수 " ++ num_hole (at_index (d_precipitation_sum d) i) ++ du_precipitation_sum du
  ++ " (확률 " ++ num_hole (at_index (d_precipitation_probability_max d) i) ++ "%)"
  ++ " | 최대풍속 " ++ num_hole (at_index (d_wind_speed_10m_max d) i) ++ du_wind_speed_10m_max du.

(** [for (let i = 0; i < d.time.length; i++) lines.push(...)]. *)
Definition push_daily (d : Daily) (du : DailyUnits) (lines : list string) : list string :=
  fold_left (fun lines i => (lines ++ [daily_line d du i])%list)
            (seq 0 (List.length (d_time d))) lines.

Definition report_lines (args : WeatherArgs) (data : Forecast) : list string :=
  push_daily (daily data) (daily_units data) (report_head args data).

Definition get_weather (args : WeatherArgs) : Eff ToolResult :=
  try_catch
    (response <- fetch_open_meteo (weather_request args) ;;
     check_ok response ;;;
     data <- await (json response) ;;
     let text := Str.join Str.LF (report_lines args data) in
     ret (text_result entry text))
    (fun error =>
       let message := message_of error in
       ret (text_only ("오류: 날씨 정보를 가져올 수 없습니다 - " ++ message))).

(** *** generate-image *)

(** [!hfToken]: the variable is unset or empty. *)
Definition falsy (v : option string) : bool :=
  match v with
  | None | Some EmptyString => true
  | Some _ => false
  end.

(** The client built with [hfToken] and the argument of its [textToImage]. *)
Definition image_request (hfToken : string) (args : ImageArgs) : TextToImage :=
  {| accessToken := hfToken;
     provider := "together";
     model := "black-forest-labs/FLUX.1-schnell";
     inputs := image_prompt args;
     num_inference_steps := image_num_inference_steps args |}.

Definition generate_image (args : ImageArgs) : Eff ToolResult :=
  hfToken <- env_HF_TOKEN ;;
  if falsy hfToken then
    ret (text_only "오류: HF_TOKEN 환경변수가 설정되지 않았습니다. HuggingFace API를 사용하려면 HF_TOKEN 환경변수를 설정해주세요.")
  else
    try_catch
      (image <- textToImage (image_request (str_hole hfToken) args) ;;
       bytes <- await (arrayBuffer image) ;;
       let base64 := Base64.encode bytes in
       ret (image_result base64))
      (fun error =>
         let message := message_of error in
         ret (text_only ("오류: 이미지 생성 실패 - " ++ message))).

End Handlers.

(** ** Input schemas

    The [zod] combinators the registrations use, over the raw JSON arguments of
    a request. *)

(** A raw JSON value; arrays and objects are not told apart, no schema here
    accepts them. *)
Inductive Raw : Type :=
| RawNull
| RawBool (b : bool)
| RawNumber (x : float)
| RawString (s : string)
| RawCompound.

(** The [arguments] object of a request.  A key that is absent reads as
    [undefined]. *)
Definition RawArgs : Type := list (string * Raw).

Fixpoint raw_property (key : string) (args : RawArgs) : option Raw :=
  match args with
  | [] => None
  | (k, v) :: rest => if String.eqb k key then Some v else raw_property key rest
  end.

(** A schema parses a value that may be [undefined]; [None] is an issue. *)
Definition Schema (A : Type) : Type := option Raw -> option A.

Module Zod.

(** [z.string()]. *)
Definition string_ : Schema string :=
  fun v => match v with Some (RawString s) => Some s | _ => None end.

(** [z.number()]: a number other than [NaN]. *)
Definition number : Schema float :=
  fun v =>
    match v with
    | Some (RawNumber x) => if PrimFloat.is_nan x then None else Some x
    | _ => None
    end.

(** [.min(c)] and [.max(c)]: inclusive bounds. *)
Definition min (c : float) (s : Schema float) : Schema float :=
  fun v =>
    match s v with
    | Some x => if (c <=? x)%float then Some x else None
    | None => None
    end.

Definition max (c : float) (s : Schema float) : Schema float :=
  fun v =>
    match s v with
    | Some x => if (x <=? c)%float then Some x else None
    | None => None
    end.

(** [z.enum([...])]: one of the listed strings. *)
Fixpoint member {A : Type} (s : string) (values : list (string * A)) : option A :=
  match values with
  | [] => None
  | (k, a) :: rest => if String.eqb k s then Some a else member s rest
  end.

Definition enum {A : Type} (values : list (string * A)) : Schema A :=
  fun v => match v with Some (RawString s) => member s values | _ => None end.

(** [.optional()]: [undefined] is accepted as it is. *)
Definition optional {A : Type} (s : Schema A) : Schema (option A) :=
  fun v =>
    match v with
    | None => Some None
    | Some _ => match s v with Some a => Some (Some a) | None => None end
    end.

(** [.default(d)]: [undefined] is replaced by [d] before parsing. *)
Definition default {A : Type} (d : A) (s : Schema (option A)) : Schema A :=
  fun v =>
    match v with
    | None => Some d
    | Some _ =>
        match s v with
        | Some (Some a) => Some a
        | Some None => Some d
        | None => None
        end
    end.

(** One field of [z.object({...})]: the issue carries the field's name. *)
Definition field {A : Type} (key : string) (s : Schema A) (args : RawArgs)
  : list string + A :=
  match s (raw_property key args) with
  | Some a => inr a
  | None => inl [key]
  end.

(** Issues of all fields are collected. *)
Definition and_ {A B : Type} (x : list string + A) (y : list string + B)
  : list string + (A * B) :=
  match x, y with
  | inr a, inr b => inr (a, b)
  | inl i, inr _ => inl i
  | inr _, inl j => inl j
  | inl i, inl j => inl (i ++ j)%list
  end.

Definition map {A B : Type} (f : A -> B) (x : list string + A) : list string + B :=
  match x with
  | inr a => inr (f a)
  | inl i => inl i
  end.

End Zod.

Definition languages : list (string * Language) :=
  [ ("ko", ko); ("en", en); ("ja", ja); ("zh", zh); ("es", es); ("fr", fr); ("de", de) ].

Definition operators : list (string * Operator) :=
  [ ("+", Plus); ("-", Minus); ("*", Times); ("/", Divide) ].

(** [forecast_days: z.number().min(1).max(16).optional().default(3)]. *)
Definition forecast_days_schema : Schema float :=
  Zod.default 3%float (Zod.optional (Zod.max 16%float (Zod.min 1%float Zod.number))).

(** [num_inference_steps: z.number().min(1).max(10).optional().default(4)]. *)
Definition num_inference_steps_schema : Schema float :=
  Zod.default 4%float (Zod.optional (Zod.max 10%float (Zod.min 1%float Zod.number))).

Definition greet_schema (args : RawArgs) : list string + GreetArgs :=
  Zod.map (fun '(name, language) => {| greet_name := name; greet_language := language |})
    (Zod.and_ (Zod.field "name" Zod.string_ args)
              (Zod.field "language" (Zod.default en (Zod.optional (Zod.enum languages))) args)).

Definition calc_schema (args : RawArgs) : list string + CalcArgs :=
  Zod.map (fun '(a, b, operator) => {| calc_a := a; calc_b := b; calc_operator := operator |})
    (Zod.and_ (Zod.and_ (Zod.field "a" Zod.number args) (Zod.field "b" Zod.number args))
              (Zod.field "operator" (Zod.enum operators) args)).

Definition now_schema (args : RawArgs) : list string + NowArgs :=
  Zod.map (fun timezone => {| now_timezone := timezone |})
    (Zod.field "timezone" (Zod.default "UTC" (Zod.optional Zod.string_)) args).

Definition geocode_schema (args : RawArgs) : list string + GeocodeArgs :=
  Zod.map (fun query => {| geocode_query := query |})
    (Zod.field "query" Zod.string_ args).

Definition weather_schema (args : RawArgs) : list string + WeatherArgs :=
  Zod.map (fun '(latitude, longitude, forecast_days) =>
             {| weather_latitude := latitude;
                weather_longitude := longitude;
                weather_forecast_days := forecast_days |})
    (Zod.and_ (Zod.and_ (Zod.field "latitude" Zod.number args)
                        (Zod.field "longitude" Zod.number args))
              (Zod.field "forecast_days" forecast_days_schema args)).

Definition image_schema (args : RawArgs) : list string + ImageArgs :=
  Zod.map (fun '(prompt, steps) =>
             {| image_prompt := prompt; image_num_inference_steps := steps |})
    (Zod.and_ (Zod.field "prompt" Zod.string_ args)
              (Zod.field "num_inference_steps" num_inference_steps_schema args)).

(** ** Registry and dispatch *)

(** A validated invocation: the tool and its typed, defaulted arguments. *)
Inductive ToolCall : Type :=
| Greet (args : GreetArgs)
| Calc (args : CalcArgs)
| Now (args : NowArgs)
| Geocode (args : GeocodeArgs)
| GetWeather (args : WeatherArgs)
| GenerateImage (args : ImageArgs).

Inductive DispatchError : Type :=
| UnknownTool (name : string)
| InvalidArguments (fields : list string).

Section Dispatch.

Variable entry : Entry.
Variable host : Host.

(** The handler registered for the tool of a validated invocation. *)
Definition handler (call : ToolCall) : Eff ToolResult :=
  match call with
  | Greet args => greet entry args
  | Calc args => calc entry args
  | Now args => now entry host args
  | Geocode args => geocode entry args
  | GetWeather args => get_weather entry args
  | GenerateImage args => generate_image args
  end.

(** The registrations of both files, by tool name: the input schema, which
    yields the invocation of the tool's handler. *)
Definition registry : list (string * (RawArgs -> list string + ToolCall)) :=
  [ ("greet", fun raw => Zod.map Greet (greet_schema raw));
    ("calc", fun raw => Zod.map Calc (calc_schema raw));
    ("now", fun raw => Zod.map Now (now_schema raw));
    ("geocode", fun raw => Zod.map Geocode (geocode_schema raw));
    ("get-weather", fun raw => Zod.map GetWeather (weather_schema raw));
    ("generate-image", fun raw => Zod.map GenerateImage (image_schema raw)) ].

Fixpoint registered {A : Type} (name : string) (tools : list (string * A)) : option A :=
  match tools with
  | [] => None
  | (k, a) :: rest => if String.eqb k name then Some a else registered name rest
  end.

(** Modelled from the spec: the dispatcher, which is the SDK's and not in
    the repository.  Steps 1 to 3 of section 4.1: an unregistered name fails
    with [UnknownTool]; the raw arguments are validated against the input
    schema and a mismatch fails with [InvalidArguments]; otherwise the
    handler is invoked with the validated, defaulted arguments. *)
Definition dispatch (name : string) (rawArgs : RawArgs) (w : World)
  : DispatchError + (list Call * Completion ToolResult) :=
  match registered name registry with
  | None => inl (UnknownTool name)
  | Some inputSchema =>
      match inputSchema rawArgs with
      | inl fields => inl (InvalidArguments fields)
      | inr call => inr (handler call w)
      end
  end.

End Dispatch.

(** ** Resource and prompt ([src/index.ts])

    The server-info resource and the code-review prompt are registered by the
    stdio server only. *)

(** [JSON.stringify(value, null, 2)] on the values the resource builds:
    objects, arrays and strings. *)
Module Json.

Unset Elimination Schemes.

Inductive value : Type :=
| Str (s : string)
| Arr (items : list value)
| Obj (members : list (string * value)).

Set Elimination Schemes.

Definition hex_lower (n : N) : ascii :=
  match String.get (N.to_nat n) "0123456789abcdef" with
  | Some c => c
  | None => "0"%char
  end.

(** One character of a quoted string: the quotation mark, the backslash and
    the control characters are escaped; bytes of multi-byte characters pass. *)
Definition escape (c : ascii) : string :=
  let n := N_of_ascii c in
  if (n =? 34)%N then String "\" (String c EmptyString)
  else if (n =? 92)%N then "\\"
  else if (n =? 8)%N then "\b"
  else if (n =? 9)%N then "\t"
  else if (n =? 10)%N then "\n"
  else if (n =? 12)%N then "\f"
  else if (n =? 13)%N then "\r"
  else if (n <? 32)%N then
    "\u00" ++ String (hex_lower (n / 16)) (String (hex_lower (n mod 16)) EmptyString)
  else String c EmptyString.

Fixpoint escape_all (s : string) : string :=
  match s with
  | EmptyString => EmptyString
  | String c s' => escape c ++ escape_all s'
  end.

Definition quote (s : string) : string :=
  let mark := String (ascii_of_nat 34) EmptyString in
  mark ++ escape_all s ++ mark.

(** [indent] is the indentation of the line the value starts on. *)
Fixpoint serialize (indent : string) (v : value) : string :=
  let inner := indent ++ "  " in
  match v with
  | Str s => quote s
  | Arr items =>
      match items with
      | [] => "[]"
      | _ =>
          "[" ++ Str.LF ++ inner
          ++ Str.join ("," ++ Str.LF ++ inner) (map (serialize inner) items)
          ++ Str.LF ++ indent ++ "]"
      end
  | Obj members =>
      match members with
      | [] => "{}"
      | _ =>
          "{" ++ Str.LF ++ inner
          ++ Str.join ("," ++ Str.LF ++ inner)
               (map (fun member => quote (fst member) ++ ": " ++ serialize inner (snd member))
                    members)
          ++ Str.LF ++ indent ++ "}"
      end
  end.

Definition stringify (v : value) : string := serialize EmptyString v.

End Json.

(** [${n}] for an integer-valued number below [10^21]. *)
Definition int_hole (n : Z) : string :=
  if n <? 0 then "-" ++ Str.decimal (Z.to_N (- n)) else Str.decimal (Z.to_N n).

(** [n] as at least [width] decimal digits. *)
Definition pad (width : nat) (n : Z) : string :=
  let digits := Str.decimal (Z.to_N n) in
  Str.repeat_char "0" (width - String.length digits) ++ digits.

(** [Date.prototype.toISOString]: the UTC fields of the instant [t]
    (milliseconds since the epoch); years outside 0-9999 take a sign and six
    digits. *)
Definition toISOString (t : Z) : string :=
  let '(y, m, d) := JsDate.civil_of_days (t / 86400000) in
  let ms := t mod 86400000 in
  (if (0 <=? y) && (y <=? 9999) then pad 4 y
   else (if y <? 0 then "-" else "+") ++ pad 6 (Z.abs y))
  ++ "-" ++ JsDate.pad2 m ++ "-" ++ JsDate.pad2 d
  ++ "T" ++ JsDate.pad2 (ms / 3600000)
  ++ ":" ++ JsDate.pad2 (ms mod 3600000 / 60000)
  ++ ":" ++ JsDate.pad2 (ms mod 60000 / 1000)
  ++ "." ++ pad 3 (ms mod 1000) ++ "Z".

(** [process.platform], [process.arch] and [process.version]. *)
Record Process : Type := {
  platform : string;
  arch : string;
  version : string
}.

(** [{ contents: [{ uri, mimeType, text }] }]. *)
Record ResourceContent : Type := {
  r_uri : string;
  r_mimeType : string;
  r_text : string
}.

Record ResourceResult : Type := { contents : list ResourceContent }.

(** Hours, minutes and seconds of the uptime: [Math.floor] of a quotient by
    a positive number is the floor division, [%] is the remainder that takes
    the sign of the dividend. *)
Definition uptime (startTime now : Z) : Z * Z * Z :=
  let uptimeMs := now - startTime in
  let uptimeSec := uptimeMs / 1000 in
  let hours := uptimeSec / 3600 in
  let minutes := Z.rem uptimeSec 3600 / 60 in
  let seconds := Z.rem uptimeSec 60 in
  (hours, minutes, seconds).

(** The literal list of tool descriptions of the resource. *)
Definition tool_descriptions : list string :=
  [ "greet - 다국어 인사말 (ko, en, ja, zh, es, fr, de)";
    "calc - 사칙연산 계산기";
    "now - 타임존별 현재 시간 조회";
    "geocode - 주소/도시명 → 위도/경도 변환 (Nominatim API)";
    "get-weather - 위도/경도 기반 날씨 조회 (Open-Meteo API)";
    "generate-image - 텍스트 프롬프트로 이미지 생성 (HuggingFace Inference API)" ].

(** The handler of the resource.  [startTime] is [Date.now()] when the module
    was loaded; [now] is the [Date.now()] of the uptime and [stamp] the
    [new Date()] of the timestamp, read one after the other. *)
Definition server_info (process : Process) (startTime : Z) (href : string)
  (now stamp : Z) : ResourceResult :=
  let '(hours, minutes, seconds) := uptime startTime now in
  let info :=
    Json.Obj
      [ ("server",
         Json.Obj
           [ ("name", Json.Str "my-mcp-server");
             ("version", Json.Str "1.0.0");
             ("description", Json.Str "TypeScript MCP Server Boilerplate") ]);
        ("tools", Json.Arr (map Json.Str tool_descriptions));
        ("runtime",
         Json.Obj
           [ ("platform", Json.Str (platform process));
             ("arch", Json.Str (arch process));
             ("nodeVersion", Json.Str (version process));
             ("uptime",
              Json.Str (int_hole hours ++ "시간 " ++ int_hole minutes ++ "분 "
                        ++ int_hole seconds ++ "초")) ]);
        ("timestamp", Json.Str (toISOString stamp)) ] in
  {| contents :=
       [ {| r_uri := href;
            r_mimeType := "application/json";
            r_text := Json.stringify info |} ] |}.

(** [{ messages: [{ role: 'user', content: { type: 'text', text } }] }]. *)
Record PromptMessage : Type := {
  role : string;
  prompt_text : string
}.

(** The lines of the review template before and after the submitted code. *)
Definition review_head : list string :=
  [ "당신은 시니어 개발자입니다. 아래 코드를 우리 팀의 코드 리뷰 기준에 따라 리뷰해주세요.";
    EmptyString;
    "## 코드 리뷰 기준";
    EmptyString;
    "### 1. 가독성";
    "- 변수/함수 이름이 명확하고 의미를 잘 전달하는가?";
    "- 코드가 적절히 구조화되어 있는가?";
    "- 불필요한 주석 없이도 코드 의도가 드러나는가?";
    EmptyString;
    "### 2. 유지보수성";
    "- 단일 책임 원칙(SRP)을 따르고 있는가?";
    "- 중복 코드가 없는가?";
    "- 적절한 추상화 수준을 유지하고 있는가?";
    EmptyString;
    "### 3. 에러 처리";
    "- 예외 상황을 적절히 처리하고 있는가?";
    "- 에러 메시지가 디버깅에 유용한가?";
    "- 엣지 케이스를 고려했는가?";
    EmptyString;
    "### 4. 성능";
    "- 불필요한 연산이나 메모리 사용은 없는가?";
    "- N+1 쿼리 등 성능 이슈가 없는가?";
    "- 적절한 자료구조를 사용하고 있는가?";
    EmptyString;
    "### 5. 보안";
    "- 사용자 입력을 검증하고 있는가?";
    "- 민감 정보가 노출되지 않는가?";
    "- 인젝션 공격에 취약하지 않은가?";
    EmptyString;
    "## 리뷰 대상 코드";
    EmptyString;
    "```" ].

Definition review_tail : list string :=
  [ "```";
    EmptyString;
    "## 응답 형식";
    EmptyString;
    "각 기준별로 다음 형식으로 리뷰해주세요:";
    EmptyString;
    "- ✅ **통과**: 기준을 충족하는 항목";
    "- ⚠️ **개선 제안**: 개선하면 좋을 항목 (구체적인 개선 코드 포함)";
    "- ❌ **수정 필요**: 반드시 수정해야 할 항목 (구체적인 수정 코드 포함)";
    EmptyString;
    "마지막에 전체 요약과 종합 점수(1~10)를 제시해주세요." ].

(** The code-review prompt. *)
Definition code_review (code : string) : list PromptMessage :=
  [ {| role := "user";
       prompt_text := Str.join Str.LF (review_head ++ [code] ++ review_tail)%list |} ].

(** ** Vocabulary of the specification *)

(** The log of outbound calls of an invocation, and how the handler ended. *)
Definition calls_of {A : Type} (run : list Call * Completion A) : list Call := fst run.
Definition completion_of {A : Type} (run : list Call * Completion A) : Completion A := snd run.

(** A normal result whose single content item is a text that the leading
    marker shows to be an error. *)
Definition error_text (r : ToolResult) : Prop :=
  exists message : string, r = text_only ("오류: " ++ message).

(** An upstream outcome that is a failure: the request was rejected (network
    failure), the status is not 2xx, or the body does not parse. *)
Definition upstream_failed {A : Type} (outcome : Completion (Response A)) : bool :=
  match outcome with
  | Threw _ => true
  | Returned response =>
      negb (ok response)
      || match json response with Threw _ => true | Returned _ => false end
  end.

(** The inference call failed, or its blob could not be read. *)
Definition inference_failed (outcome : Completion Blob) : bool :=
  match outcome with
  | Threw _ => true
  | Returned image => match arrayBuffer image with Threw _ => true | Returned _ => false end
  end.

(** The failures of an invocation: a failed outbound call, and what the handler
    itself rejects as an error (division by zero, a time zone the runtime does
    not know, a missing credential).  Zero geocoding matches are an answer,
    not a failure. *)
Definition fails (host : Host) (call : ToolCall) (w : World) : bool :=
  match call with
  | Greet _ => false
  | Calc args =>
      match calc_operator args with
      | Divide => (calc_b args =? 0)%float
      | _ => false
      end
  | Now args =>
      match time_zone host (now_timezone args) with
      | None => true
      | Some _ => false
      end
  | Geocode args => upstream_failed (nominatim w (geocode_request (geocode_query args)))
  | GetWeather args => upstream_failed (open_meteo w (weather_request args))
  | GenerateImage args =>
      falsy (HF_TOKEN w)
      || inference_failed (inference w (image_request (str_hole (HF_TOKEN w)) args))
  end.

(** The native arithmetic of an operator. *)
Definition native (o : Operator) (a b : float) : float :=
  match o with
  | Plus => a + b
  | Minus => a - b
  | Times => a * b
  | Divide => a / b
  end%float.

(** "[{a} {operator} {b} = {result}]". *)
Definition calc_text (a b : float) (o : Operator) : string :=
  JsNumber.Number_toString a ++ " " ++ operator_symbol o ++ " "
  ++ JsNumber.Number_toString b ++ " = " ++ JsNumber.Number_toString (native o a b).

(** The division-by-zero case of the calculator. *)
Definition divides_by_zero (b : float) (o : Operator) : bool :=
  match o with
  | Divide => (b =? 0)%float
  | _ => false
  end.

(** A decimal digit, and a field of exactly two of them. *)
Definition is_digit (c : ascii) : bool :=
  ((48 <=? N_of_ascii c) && (N_of_ascii c <=? 57))%N.

Definition two_digits (s : string) : bool :=
  match s with
  | String a (String b EmptyString) => is_digit a && is_digit b
  | _ => false
  end.

Fixpoint all_digits (s : string) : bool :=
  match s with
  | EmptyString => true
  | String c s' => is_digit c && all_digits s'
  end.





(** The lines of a weather report that follow the forecast title: the text
    has ten lines before them. *)
Definition forecast_section (text : string) : list string :=
  skipn 10 (Str.lines text).

(** The text of a result that is a single text item. *)
Definition text_of (r : Completion ToolResult) : option string :=
  match r with
  | Returned {| content := [TextItem t] |} => Some t
  | _ => None
  end.

(** A [forecast_days] argument between 1 and 16: a number, other than [NaN],
    with [1 <= x <= 16]. *)
Definition in_forecast_range (v : Raw) : bool :=
  match v with
  | RawNumber x => negb (PrimFloat.is_nan x) && ((1 <=? x) && (x <=? 16))%float
  | _ => false
  end.

(** An integer between 1 and 16. *)
Definition integer_1_to_16 (v : Raw) : bool :=
  match v with
  | RawNumber x =>
      existsb (fun n => (x =? n)%float)
              [1; 2; 3; 4; 5; 6; 7; 8; 9; 10; 11; 12; 13; 14; 15; 16]%float
  | _ => false
  end.

(** The day number (days since 1970-01-01) of a date of the proleptic
    Gregorian calendar, and the second a rendering of wall-clock fields
    denotes; hour 24 of the [h24] cycle is midnight. *)
Definition days_from_civil (y m d : Z) : Z :=
  let y' := if m <=? 2 then y - 1 else y in
  let era := y' / 400 in
  let yoe := y' mod 400 in
  let mp := if 2 <? m then m - 3 else m + 9 in
  let doy := (153 * mp + 2) / 5 + d - 1 in
  let doe := yoe * 365 + yoe / 4 - yoe / 100 + doy in
  era * 146097 + doe - 719468.

Definition second_of (f : JsDate.Fields) : Z :=
  days_from_civil (JsDate.year f) (JsDate.month f) (JsDate.day f) * 86400
  + JsDate.hour f mod 24 * 3600 + JsDate.minute f * 60 + JsDate.second f.

(** Two worlds in which every upstream service answers every request alike. *)
Definition same_upstream (w1 w2 : World) : Prop :=
  (forall rq, nominatim w1 rq = nominatim w2 rq)
  /\ (forall rq, open_meteo w1 rq = open_meteo w2 rq)
  /\ (forall rq, inference w1 rq = inference w2 rq).

(** What an invocation reads besides its input and the upstream response: the
    clock for [now], the credential for [generate-image]. *)
Definition same_ambient (call : ToolCall) (w1 w2 : World) : Prop :=
  match call with
  | Now _ => clock w1 = clock w2
  | GenerateImage _ => HF_TOKEN w1 = HF_TOKEN w2
  | _ => True
  end.

(** *** Vocabulary for the rest of the code *)

(** The value of a hexadecimal digit. *)
Definition hex_value (c : ascii) : option N :=
  let n := N_of_ascii c in
  (if (48 <=? n) && (n <=? 57) then Some (n - 48)
   else if (65 <=? n) && (n <=? 70) then Some (n - 55)
   else if (97 <=? n) && (n <=? 102) then Some (n - 87)
   else None)%N.

(** [decodeURIComponent] on the bytes of a string: [%XX] is the byte [XX]. *)
Fixpoint percent_decode (s : string) : option string :=
  match s with
  | EmptyString => Some EmptyString
  | String c rest =>
      if Ascii.eqb c "%" then
        match rest with
        | String h (String l rest') =>
            match hex_value h, hex_value l, percent_decode rest' with
            | Some a, Some b, Some r => Some (String (ascii_of_N (a * 16 + b)) r)
            | _, _, _ => None
            end
        | _ => None
        end
      else option_map (String c) (percent_decode rest)
  end%N.

(** How often the character [c] occurs in [s]. *)
Fixpoint count_char (c : ascii) (s : string) : nat :=
  match s with
  | EmptyString => O
  | String x s' => ((if Ascii.eqb x c then 1 else 0) + count_char c s')%nat
  end.

(** The position of a character in the base64 alphabet. *)
Fixpoint index_from (i : N) (c : ascii) (s : string) : option N :=
  match s with
  | EmptyString => None
  | String x s' => if Ascii.eqb x c then Some i else index_from (i + 1) c s'
  end.

Definition sextet_value (c : ascii) : option N := index_from 0 c Base64.alphabet.

Definition bytes_of (ns : list N) : option (list Byte.byte) :=
  fold_right (fun n acc =>
                match Byte.of_N n, acc with
                | Some b, Some bs => Some (b :: bs)
                | _, _ => None
                end) (Some []) ns.

(** Decoding of base64 (RFC 4648): groups of four characters, padding in the
    last group only. *)
Fixpoint base64_decode (s : string) : option (list Byte.byte) :=
  match s with
  | EmptyString => Some []
  | String a (String b (String c (String d rest))) =>
      match sextet_value a, sextet_value b with
      | Some x, Some y =>
          if Ascii.eqb d "=" then
            match rest with
            | EmptyString =>
                if Ascii.eqb c "=" then bytes_of [x * 4 + y / 16]
                else
                  match sextet_value c with
                  | Some z => bytes_of [x * 4 + y / 16; y mod 16 * 16 + z / 4]
                  | None => None
                  end
            | _ => None
            end
          else
            match sextet_value c, sextet_value d, base64_decode rest with
            | Some z, Some u, Some more =>
                match bytes_of [x * 4 + y / 16; y mod 16 * 16 + z / 4; z mod 4 * 64 + u] with
                | Some group => Some (group ++ more)%list
                | None => None
                end
            | _, _, _ => None
            end
      | _, _ => None
      end
  | _ => None
  end%N.

(** Reading a JSON string literal back: the inverse of the quoting, for the
    escapes of one byte.  [unescape] reads up to the closing quotation mark,
    which has to end the text. *)
Fixpoint unescape (s : string) : option string :=
  match s with
  | EmptyString => None
  | String c rest =>
      let n := N_of_ascii c in
      if (n =? 34)%N then
        match rest with EmptyString => Some EmptyString | _ => None end
      else if (n =? 92)%N then
        match rest with
        | String e rest' =>
            let k := N_of_ascii e in
            if (k =? 117)%N then
              match rest' with
              | String a (String b (String x (String y rest''))) =>
                  match hex_value a, hex_value b, hex_value x, hex_value y, unescape rest'' with
                  | Some 0%N, Some 0%N, Some h, Some l, Some r =>
                      if (h * 16 + l <? 128)%N
                      then Some (String (ascii_of_N (h * 16 + l)) r)
                      else None
                  | _, _, _, _, _ => None
                  end
              | _ => None
              end
            else
              match
                (if (k =? 34)%N then Some 34
                 else if (k =? 92)%N then Some 92
                 else if (k =? 47)%N then Some 47
                 else if (k =? 98)%N then Some 8
                 else if (k =? 116)%N then Some 9
                 else if (k =? 110)%N then Some 10
                 else if (k =? 102)%N then Some 12
                 else if (k =? 114)%N then Some 13
                 else None)%N,
                unescape rest'
              with
              | Some v, Some r => Some (String (ascii_of_N v) r)
              | _, _ => None
              end
        | EmptyString => None
        end
      else if (n <? 32)%N then None
      else option_map (String c) (unescape rest)
  end.

Definition json_unquote (s : string) : option string :=
  match s with
  | String c rest => if (N_of_ascii c =? 34)%N then unescape rest else None
  | EmptyString => None
  end.

(** The outbound calls an invocation is to make, from its input and the
    credential alone. *)
Definition planned_calls (call : ToolCall) (w : World) : list Call :=
  match call with
  | Greet _ | Calc _ | Now _ => []
  | Geocode args => [FetchCall (geocode_request (geocode_query args))]
  | GetWeather args => [FetchCall (weather_request args)]
  | GenerateImage args =>
      if falsy (HF_TOKEN w) then []
      else [InferenceCall (image_request (str_hole (HF_TOKEN w)) args)]
  end.

(** The name a tool is registered under. *)
Definition tool_name (call : ToolCall) : string :=
  match call with
  | Greet _ => "greet"
  | Calc _ => "calc"
  | Now _ => "now"
  | Geocode _ => "geocode"
  | GetWeather _ => "get-weather"
  | GenerateImage _ => "generate-image"
  end.

(** A number within inclusive bounds (so: not [NaN]). *)
Definition between (lo hi x : float) : bool := ((lo <=? x) && (x <=? hi))%float.

(** The domain the input schemas declare for the arguments of a handler. *)
Definition in_domain (call : ToolCall) : bool :=
  match call with
  | Greet _ | Now _ | Geocode _ => true
  | Calc args =>
      negb (PrimFloat.is_nan (calc_a args)) && negb (PrimFloat.is_nan (calc_b args))
  | GetWeather args =>
      negb (PrimFloat.is_nan (weather_latitude args))
      && negb (PrimFloat.is_nan (weather_longitude args))
      && between 1 16 (weather_forecast_days args)
  | GenerateImage args => between 1 10 (image_num_inference_steps args)
  end.

(** The greeting template of a language: what precedes and what follows the
    name. *)
Definition greeting_frame (l : Language) : string * string :=
  match l with
  | ko => ("안녕하세요, ", "님!")
  | en => ("Hey there, ", "! 👋 Nice to meet you!")
  | ja => ("こんにちは、", "さん！")
  | zh => ("你好，", "！")
  | es => ("¡Hola, ", "! ¿Qué tal?")
  | fr => ("Bonjour, ", " ! Enchanté(e) !")
  | de => ("Hallo, ", "! Freut mich!")
  end.

(** The tool a description of the resource is about: what precedes [" - "]. *)
Fixpoint described_tool (acc s : string) : string :=
  match s with
  | EmptyString => acc
  | String c s' =>
      if String.prefix " - " s then acc
      else described_tool (acc ++ String c EmptyString) s'
  end.

(** A text without a line feed, and a forecast body none of whose strings
    holds one. *)
Definition one_line (s : string) : bool :=
  Nat.eqb (count_char (ascii_of_nat 10) s) 0.

Definition one_line_strings (data : Forecast) : bool :=
  one_line (timezone data)
  && one_line (c_time (current data))
  && one_line (cu_temperature_2m (current_units data))
  && one_line (cu_relative_humidity_2m (current_units data))
  && one_line (cu_apparent_temperature (current_units data))
  && one_line (cu_wind_speed_10m (current_units data))
  && one_line (cu_precipitation (current_units data))
  && one_line (du_temperature_2m_max (daily_units data))
  && one_line (du_precipitation_sum (daily_units data))
  && one_line (du_wind_speed_10m_max (daily_units data))
  && forallb one_line (d_time (daily data)).

(** Well-formed UTF-8 (Unicode, table 3-7): the byte strings that encode a
    JavaScript string without a lone surrogate.  [encodeURIComponent] throws
    a [URIError] on the others. *)
Fixpoint well_formed_utf8 (s : string) : bool :=
  let within (lo hi : N) (c : ascii) := ((lo <=? N_of_ascii c) && (N_of_ascii c <=? hi))%N in
  match s with
  | EmptyString => true
  | String a rest =>
      if within 0%N 127%N a then well_formed_utf8 rest
      else
        match rest with
        | String b rest2 =>
            if within 194%N 223%N a then within 128%N 191%N b && well_formed_utf8 rest2
            else
              match rest2 with
              | String c rest3 =>
                  if within 224%N 224%N a then
                    within 160%N 191%N b && within 128%N 191%N c && well_formed_utf8 rest3
                  else if within 225%N 236%N a || within 238%N 239%N a then
                    within 128%N 191%N b && within 128%N 191%N c && well_formed_utf8 rest3
                  else if within 237%N 237%N a then
                    within 128%N 159%N b && within 128%N 191%N c && well_formed_utf8 rest3
                  else
                    match rest3 with
                    | String d rest4 =>
                        let tail :=
                          within 128%N 191%N c && within 128%N 191%N d
                          && well_formed_utf8 rest4 in
                        if within 240%N 240%N a then within 144%N 191%N b && tail
                        else if within 241%N 243%N a then within 128%N 191%N b && tail
                        else if within 244%N 244%N a then within 128%N 143%N b && tail
                        else false
                    | EmptyString => false
                    end
              | EmptyString => false
              end
        | EmptyString => false
        end
  end.

(** The strings an invocation passes to [encodeURIComponent] are well formed. *)
Definition well_formed_input (call : ToolCall) : bool :=
  match call with
  | Geocode args => well_formed_utf8 (geocode_query args)
  | _ => true
  end.

(** The returns of [src/index.ts] that carry [structuredContent]: the
    greeting, a calculation, the time of a known zone, a geocoding match and
    a weather report.  Error texts, the no-results text of the geocoder and
    the results of generate-image carry none. *)
Definition sets_structured (host : Host) (call : ToolCall) (w : World) : bool :=
  match call with
  | Greet _ => true
  | Calc args => negb (divides_by_zero (calc_b args) (calc_operator args))
  | Now args =>
      match time_zone host (now_timezone args) with
      | Some _ => true
      | None => false
      end
  | Geocode args =>
      let outcome := nominatim w (geocode_request (geocode_query args)) in
      negb (upstream_failed outcome)
      && match outcome with
         | Returned response =>
             match json response with
             | Returned (Some (_ :: _)) => true
             | _ => false
             end
         | Threw _ => false
         end
  | GetWeather args => negb (upstream_failed (open_meteo w (weather_request args)))
  | GenerateImage _ => false
  end.

(** ** Sample runtime, worlds and inputs *)

Module Sample.

(** A runtime that knows two zones without daylight saving. *)
Definition runtime : Host :=
  {| time_zone := fun zone =>
       if String.eqb zone "UTC" then Some (fun _ => 0)
       else if String.eqb zone "Asia/Seoul" then Some (fun _ => 32400000)
       else None;
     hour_cycle := JsDate.h23 |}.

Definition seoul : GeoRecord :=
  {| display_name := "Seoul, South Korea"; lat := "37.5666791"; lon := "126.9782914" |}.

Definition busan : GeoRecord :=
  {| display_name := "Busan, South Korea"; lat := "35.1799528"; lon := "129.0752365" |}.

(** A forecast body with two days in its daily arrays. *)
Definition two_days : Forecast :=
  {| timezone := "Asia/Seoul";
     current :=
       {| c_time := "2024-01-15T21:00";
          c_temperature_2m := 1.5; c_relative_humidity_2m := 40;
          c_apparent_temperature := -2.5; c_weather_code := 3;
          c_wind_speed_10m := 7.25; c_wind_direction_10m := 270;
          c_precipitation := 0 |};
     current_units :=
       {| cu_temperature_2m := "C"; cu_relative_humidity_2m := "%";
          cu_apparent_temperature := "C"; cu_wind_speed_10m := "km/h";
          cu_precipitation := "mm" |};
     daily :=
       {| d_time := ["2024-01-15"; "2024-01-16"];
          d_weather_code := [0; 4]%float;
          d_temperature_2m_max := [3.5; 5]%float;
          d_temperature_2m_min := [-4; -1.5]%float;
          d_precipitation_sum := [0; 1.25]%float;
          d_precipitation_probability_max := [0; 60]%float;
          d_wind_speed_10m_max := [12.5; 9]%float |};
     daily_units :=
       {| du_temperature_2m_max := "C"; du_precipitation_sum := "mm";
          du_wind_speed_10m_max := "km/h" |} |}.

(** The world of a mocked test: noon of 2024-01-15 UTC, no credential, a
    geocoder that finds two records, a forecast of two days, an inference
    provider that rejects. *)
Definition world : World :=
  {| clock := 1705320000000;
     HF_TOKEN := None;
     nominatim := fun _ => Returned {| status := 200; json := Returned (Some [seoul; busan]) |};
     open_meteo := fun _ => Returned {| status := 200; json := Returned two_days |};
     inference := fun _ => Threw (ErrorObject "Invalid credentials") |}.

Definition at_time (t : Z) (w : World) : World :=
  {| clock := t; HF_TOKEN := HF_TOKEN w; nominatim := nominatim w;
     open_meteo := open_meteo w; inference := inference w |}.

Definition with_token (token : option string) (w : World) : World :=
  {| clock := clock w; HF_TOKEN := token; nominatim := nominatim w;
     open_meteo := open_meteo w; inference := inference w |}.

Definition with_nominatim
  (outcome : Completion (Response (option (list GeoRecord)))) (w : World) : World :=
  {| clock := clock w; HF_TOKEN := HF_TOKEN w; nominatim := fun _ => outcome;
     open_meteo := open_meteo w; inference := inference w |}.

Definition with_open_meteo (outcome : Completion (Response Forecast)) (w : World) : World :=
  {| clock := clock w; HF_TOKEN := HF_TOKEN w; nominatim := nominatim w;
     open_meteo := fun _ => outcome; inference := inference w |}.

Definition with_inference (outcome : Completion Blob) (w : World) : World :=
  {| clock := clock w; HF_TOKEN := HF_TOKEN w; nominatim := nominatim w;
     open_meteo := open_meteo w; inference := fun _ => outcome |}.

Definition seoul_weather (forecast_days : float) : WeatherArgs :=
  {| weather_latitude := 37.5; weather_longitude := 127;
     weather_forecast_days := forecast_days |}.

(** A forecast body with the three days of a three-day request. *)
Definition three_days : Forecast :=
  {| timezone := timezone two_days;
     current := current two_days;
     current_units := current_units two_days;
     daily :=
       {| d_time := ["2024-01-15"; "2024-01-16"; "2024-01-17"];
          d_weather_code := [0; 4; 61]%float;
          d_temperature_2m_max := [3.5; 5; 6.5]%float;
          d_temperature_2m_min := [-4; -1.5; 0]%float;
          d_precipitation_sum := [0; 1.25; 7.5]%float;
          d_precipitation_probability_max := [0; 60; 90]%float;
          d_wind_speed_10m_max := [12.5; 9; 20]%float |};
     daily_units := daily_units two_days |}.

(** The same body with an empty code array. *)
Definition no_codes : Forecast :=
  {| timezone := timezone two_days;
     current := current two_days;
     current_units := current_units two_days;
     daily :=
       {| d_time := d_time (daily two_days);
          d_weather_code := [];
          d_temperature_2m_max := d_temperature_2m_max (daily two_days);
          d_temperature_2m_min := d_temperature_2m_min (daily two_days);
          d_precipitation_sum := d_precipitation_sum (daily two_days);
          d_precipitation_probability_max :=
            d_precipitation_probability_max (daily two_days);
          d_wind_speed_10m_max := d_wind_speed_10m_max (daily two_days) |};
     daily_units := daily_units two_days |}.

Definition node : Process :=
  {| platform := "linux"; arch := "x64"; version := "v20.11.0" |}.

(** Raw arguments of a [get-weather] request. *)
Definition weather_raw (forecast_days : option Raw) : RawArgs :=
  ([("latitude", RawNumber 37.5); ("longitude", RawNumber 127)]
   ++ match forecast_days with
      | Some v => [("forecast_days", v)]
      | None => []
      end)%list.

End Sample.

(** * Properties *)

(** ** The model computes

    Values the JavaScript runtime is known to print. *)

Example number_rendering :
  map JsNumber.Number_toString
    [ 1 / 10 + 2 / 10; 1 / 3; 1e21; 1 / 10000000; 123456789012345683968;
      -1.5; 0; -0; 1 / 0; 0 / 0; 9007199254740992; 37.5 ]%float
  = [ "0.30000000000000004"; "0.3333333333333333"; "1e+21"; "1e-7";
      "123456789012345680000"; "-1.5"; "0"; "0"; "Infinity"; "NaN";
      "9007199254740992"; "37.5" ].
Proof. vm_compute. reflexivity. Qed.

Example uri_encoding :
  Uri.encodeURIComponent "서울 A&b=(c)" = "%EC%84%9C%EC%9A%B8%20A%26b%3D(c)".
Proof. vm_compute. reflexivity. Qed.

Example base64_encoding :
  map (fun s => Base64.encode (list_byte_of_string s)) ["M"; "Ma"; "Man"; "Many"]
  = ["TQ=="; "TWE="; "TWFu"; "TWFueQ=="].
Proof. vm_compute. reflexivity. Qed.

Example date_rendering :
  map (fun t => JsDate.render (JsDate.fields_of JsDate.h23 t))
    [0; 951782400000; 1709251199000; -1000]
  = [ "1970. 01. 01. 00:00:00"; "2000. 02. 29. 00:00:00";
      "2024. 02. 29. 23:59:59"; "1969. 12. 31. 23:59:59" ]
  /\ JsDate.render (JsDate.fields_of JsDate.h24 0) = "1970. 01. 01. 24:00:00".
Proof. split; vm_compute; reflexivity. Qed.

Example greet_in_korean :
  greet StdioServer {| greet_name := "Zara"; greet_language := ko |} Sample.world
  = ([], Returned (text_result StdioServer "안녕하세요, Zara님!")).
Proof. vm_compute. reflexivity. Qed.

Example sample_forecast_section :
  option_map forecast_section
    (text_of (completion_of
       (get_weather HttpRoute (Sample.seoul_weather 3) Sample.world)))
  = Some [ "  2024-01-15 | 맑음 ☀️ | -4~3.5C | 강수 0mm (확률 0%) | 최대풍속 12.5km/h";
           "  2024-01-16 | 알 수 없음 (4) | -1.5~5C | 강수 1.25mm (확률 60%) | 최대풍속 9km/h" ].
Proof. vm_compute. reflexivity. Qed.

(** ** The effect monad *)

Lemma bind_ret_l {A B : Type} (a : A) (k : A -> Eff B) w : bind (ret a) k w = k a w.
Proof. unfold bind, ret. destruct (k a w) as [log r]. reflexivity. Qed.

Lemma bind_ret_r {A : Type} (c : Eff A) w : bind c ret w = c w.
Proof.
  unfold bind, ret. destruct (c w) as [log [a|e]]; [|reflexivity].
  now rewrite app_nil_r.
Qed.

Lemma bind_assoc {A B C : Type} (c : Eff A) (k : A -> Eff B) (h : B -> Eff C) w :
  bind (bind c k) h w = bind c (fun a => bind (k a) h) w.
Proof.
  unfold bind. destruct (c w) as [log [a|e]]; [|reflexivity].
  destruct (k a w) as [log' [b|e]]; [|reflexivity].
  destruct (h b w) as [log'' r]. now rewrite app_assoc.
Qed.

Lemma bind_throw {A B : Type} (e : Thrown) (k : A -> Eff B) w :
  bind (throw e) k w = throw e w.
Proof. reflexivity. Qed.

Lemma try_catch_ret {A : Type} (a : A) (h : Thrown -> Eff A) w :
  try_catch (ret a) h w = ret a w.
Proof. reflexivity. Qed.

Lemma try_catch_throw {A : Type} (e : Thrown) (h : Thrown -> Eff A) w :
  try_catch (throw e) h w = h e w.
Proof. unfold try_catch, throw. destruct (h e w) as [log r]. reflexivity. Qed.

(** A handler whose catch clause returns never throws. *)
Lemma try_catch_total {A : Type} (body : Eff A) (recover : Thrown -> A) w :
  exists a, completion_of (try_catch body (fun e => ret (recover e)) w) = Returned a.
Proof.
  unfold try_catch, completion_of, ret.
  destruct (body w) as [log [a|e]]; eexists; reflexivity.
Qed.

(** ** How each handler runs

    One equation per path through a handler: the log of outbound calls and the
    completion, from what the world answers. *)

Ltac unfold_eff :=
  cbv beta iota zeta delta
    [greet calc now geocode get_weather generate_image toLocaleString
     check_ok bind ret throw try_catch await new_Date env_HF_TOKEN
     fetch_nominatim fetch_open_meteo textToImage].

(** Case analysis on the innermost scrutinee of the goal. *)
Ltac case_step :=
  match goal with
  | |- context [match ?x with _ => _ end] =>
      lazymatch x with
      | context [match _ with _ => _ end] => fail
      | _ => destruct x
      end
  end.

Section Runs.

Variable entry : Entry.
Variable host : Host.
Variable w : World.

Lemma greet_run args :
  exists text, greet entry args w = ([], Returned (text_result entry text)).
Proof. unfold_eff. eexists. reflexivity. Qed.

Lemma calc_run a b o :
  calc entry {| calc_a := a; calc_b := b; calc_operator := o |} w
  = ([], Returned (if divides_by_zero b o
                   then text_only "오류: 0으로 나눌 수 없습니다."
                   else text_result entry (calc_text a b o))).
Proof.
  unfold_eff. unfold divides_by_zero, calc_text, native.
  destruct o; cbn; try reflexivity.
  destruct (b =? 0)%float; reflexivity.
Qed.

Lemma now_known zone offset :
  time_zone host zone = Some offset ->
  now entry host {| now_timezone := zone |} w
  = ([], Returned (text_result entry
        ("[" ++ zone ++ "] 현재 시간: "
         ++ JsDate.render (JsDate.fields_of (hour_cycle host) (clock w + offset (clock w)))))).
Proof. intros Hz. unfold_eff. cbn. rewrite Hz. reflexivity. Qed.

Lemma now_unknown zone :
  time_zone host zone = None ->
  now entry host {| now_timezone := zone |} w
  = ([], Returned (text_only
        ("오류: '" ++ zone ++ "'은(는) 유효하지 않은 타임존입니다. IANA 타임존 형식을 사용해주세요. (예: Asia/Seoul, America/New_York)"))).
Proof. intros Hz. unfold_eff. cbn. rewrite Hz. reflexivity. Qed.

(** geocode *)

Lemma geocode_rejected query e :
  nominatim w (geocode_request query) = Threw e ->
  geocode entry {| geocode_query := query |} w
  = ([FetchCall (geocode_request query)],
     Returned (text_only ("오류: 지오코딩 실패 - " ++ message_of e))).
Proof. intros H. unfold_eff. cbn. rewrite H. reflexivity. Qed.

Lemma geocode_status query response :
  nominatim w (geocode_request query) = Returned response ->
  ok response = false ->
  geocode entry {| geocode_query := query |} w
  = ([FetchCall (geocode_request query)],
     Returned (text_only ("오류: 지오코딩 실패 - API 요청 실패: "
                          ++ Str.decimal (status response)))).
Proof. intros H Hok. unfold_eff. cbn. rewrite H, Hok. reflexivity. Qed.

Lemma geocode_unparseable query response e :
  nominatim w (geocode_request query) = Returned response ->
  ok response = true ->
  json response = Threw e ->
  geocode entry {| geocode_query := query |} w
  = ([FetchCall (geocode_request query)],
     Returned (text_only ("오류: 지오코딩 실패 - " ++ message_of e))).
Proof. intros H Hok Hj. unfold_eff. cbn. rewrite H, Hok. cbn. rewrite Hj. reflexivity. Qed.

Lemma geocode_no_match query response data :
  nominatim w (geocode_request query) = Returned response ->
  ok response = true ->
  json response = Returned data ->
  data = None \/ data = Some [] ->
  geocode entry {| geocode_query := query |} w
  = ([FetchCall (geocode_request query)],
     Returned (text_only ("'" ++ query ++ "'에 대한 검색 결과가 없습니다."))).
Proof.
  intros H Hok Hj Hd. unfold_eff. cbn. rewrite H, Hok. cbn. rewrite Hj.
  destruct Hd; subst data; reflexivity.
Qed.

Lemma geocode_match query response first others :
  nominatim w (geocode_request query) = Returned response ->
  ok response = true ->
  json response = Returned (Some (first :: others)) ->
  geocode entry {| geocode_query := query |} w
  = ([FetchCall (geocode_request query)],
     Returned (text_result entry
       (Str.join Str.LF
          [ "📍 " ++ display_name first;
            "위도(lat): " ++ lat first;
            "경도(lon): " ++ lon first ]))).
Proof. intros H Hok Hj. unfold_eff. cbn. rewrite H, Hok. cbn. rewrite Hj. reflexivity. Qed.


(** get-weather *)

Lemma weather_rejected args e :
  open_meteo w (weather_request args) = Threw e ->
  get_weather entry args w
  = ([FetchCall (weather_request args)],
     Returned (text_only ("오류: 날씨 정보를 가져올 수 없습니다 - " ++ message_of e))).
Proof. intros H. unfold_eff. cbn. rewrite H. reflexivity. Qed.

Lemma weather_status args response :
  open_meteo w (weather_request args) = Returned response ->
  ok response = false ->
  get_weather entry args w
  = ([FetchCall (weather_request args)],
     Returned (text_only ("오류: 날씨 정보를 가져올 수 없습니다 - API 요청 실패: "
                          ++ Str.decimal (status response)))).
Proof. intros H Hok. unfold_eff. cbn. rewrite H, Hok. reflexivity. Qed.

Lemma weather_unparseable args response e :
  open_meteo w (weather_request args) = Returned response ->
  ok response = true ->
  json response = Threw e ->
  get_weather entry args w
  = ([FetchCall (weather_request args)],
     Returned (text_only ("오류: 날씨 정보를 가져올 수 없습니다 - " ++ message_of e))).
Proof. intros H Hok Hj. unfold_eff. cbn. rewrite H, Hok. cbn. rewrite Hj. reflexivity. Qed.

Lemma weather_report args response data :
  open_meteo w (weather_request args) = Returned response ->
  ok response = true ->
  json response = Returned data ->
  get_weather entry args w
  = ([FetchCall (weather_request args)],
     Returned (text_result entry (Str.join Str.LF (report_lines args data)))).
Proof. intros H Hok Hj. unfold_eff. cbn. rewrite H, Hok. cbn. rewrite Hj. reflexivity. Qed.

(** generate-image *)

Lemma image_no_token args :
  falsy (HF_TOKEN w) = true ->
  generate_image args w
  = ([], Returned (text_only "오류: HF_TOKEN 환경변수가 설정되지 않았습니다. HuggingFace API를 사용하려면 HF_TOKEN 환경변수를 설정해주세요.")).
Proof. intros H. unfold_eff. cbn. rewrite H. reflexivity. Qed.

Lemma image_rejected args e :
  falsy (HF_TOKEN w) = false ->
  inference w (image_request (str_hole (HF_TOKEN w)) args) = Threw e ->
  generate_image args w
  = ([InferenceCall (image_request (str_hole (HF_TOKEN w)) args)],
     Returned (text_only ("오류: 이미지 생성 실패 - " ++ message_of e))).
Proof. intros H Hi. unfold_eff. cbn. rewrite H, Hi. reflexivity. Qed.

Lemma image_unreadable args image e :
  falsy (HF_TOKEN w) = false ->
  inference w (image_request (str_hole (HF_TOKEN w)) args) = Returned image ->
  arrayBuffer image = Threw e ->
  generate_image args w
  = ([InferenceCall (image_request (str_hole (HF_TOKEN w)) args)],
     Returned (text_only ("오류: 이미지 생성 실패 - " ++ message_of e))).
Proof. intros H Hi Hb. unfold_eff. cbn. rewrite H, Hi. cbn. rewrite Hb. reflexivity. Qed.

Lemma image_made args image bytes :
  falsy (HF_TOKEN w) = false ->
  inference w (image_request (str_hole (HF_TOKEN w)) args) = Returned image ->
  arrayBuffer image = Returned bytes ->
  generate_image args w
  = ([InferenceCall (image_request (str_hole (HF_TOKEN w)) args)],
     Returned (image_result (Base64.encode bytes))).
Proof. intros H Hi Hb. unfold_eff. cbn. rewrite H, Hi. cbn. rewrite Hb. reflexivity. Qed.

End Runs.

(** The loop over the daily arrays appends one line per index, in order. *)
Lemma push_daily_map d du lines :
  push_daily d du lines
  = (lines ++ map (daily_line d du) (seq 0 (List.length (d_time d))))%list.
Proof.
  unfold push_daily.
  generalize (seq 0 (List.length (d_time d))) as indices.
  intros indices. revert lines.
  induction indices as [|i indices IH]; intros lines; cbn.
  - now rewrite app_nil_r.
  - rewrite IH, <- app_assoc. reflexivity.
Qed.

(** ** Shape of the results *)

Lemma content_text_result entry text : content (text_result entry text) = [TextItem text].
Proof. destruct entry; reflexivity. Qed.

Lemma error_text_only message : error_text (text_only ("오류: " ++ message)).
Proof. exists message. reflexivity. Qed.

(** Every invocation returns a result with one content item, and that item
    is an error text whenever the invocation failed. *)
Ltac settled :=
  do 2 eexists; split; [reflexivity|]; split;
  [ first [reflexivity | apply content_text_result]
  | first [discriminate | intros _; eexists; reflexivity] ].

Lemma handler_settles entry host call w :
  exists r item,
    completion_of (handler entry host call w) = Returned r
    /\ content r = [item]
    /\ (fails host call w = true -> error_text r).
Proof.
  destruct call as [args|[a b o]|[zone]|[query]|args|args];
    unfold handler, fails, completion_of.
  - destruct (greet_run entry w args) as [text ->]. settled.
  - rewrite calc_run. cbn [calc_operator calc_b snd].
    destruct o; cbn [divides_by_zero]; try settled.
    destruct (b =? 0)%float; settled.
  - cbn [now_timezone].
    destruct (time_zone host zone) as [offset|] eqn:Hz.
    + rewrite (now_known entry host w zone offset Hz). settled.
    + rewrite (now_unknown entry host w zone Hz). settled.
  - cbn [geocode_query]. unfold upstream_failed.
    destruct (nominatim w (geocode_request query)) as [response|e] eqn:Hn;
      [ destruct (ok response) eqn:Hok;
        [ destruct (json response) as [[[|first others]|]|e] eqn:Hj |] |].
    + rewrite (geocode_no_match entry w query response _ Hn Hok Hj (or_intror eq_refl)).
      settled.
    + rewrite (geocode_match entry w query response first others Hn Hok Hj). settled.
    + rewrite (geocode_no_match entry w query response _ Hn Hok Hj (or_introl eq_refl)).
      settled.
    + rewrite (geocode_unparseable entry w query response e Hn Hok Hj). settled.
    + rewrite (geocode_status entry w query response Hn Hok). settled.
    + rewrite (geocode_rejected entry w query e Hn). settled.
  - unfold upstream_failed.
    destruct (open_meteo w (weather_request args)) as [response|e] eqn:Hn;
      [ destruct (ok response) eqn:Hok;
        [ destruct (json response) as [data|e] eqn:Hj |] |].
    + rewrite (weather_report entry w args response data Hn Hok Hj). settled.
    + rewrite (weather_unparseable entry w args response e Hn Hok Hj). settled.
    + rewrite (weather_status entry w args response Hn Hok). settled.
    + rewrite (weather_rejected entry w args e Hn). settled.
  - unfold inference_failed.
    destruct (falsy (HF_TOKEN w)) eqn:Hf.
    + rewrite (image_no_token w args Hf). settled.
    + destruct (inference w (image_request (str_hole (HF_TOKEN w)) args))
        as [image|e] eqn:Hi; [ destruct (arrayBuffer image) as [bytes|e] eqn:Hb |].
      * rewrite (image_made w args image bytes Hf Hi Hb). settled.
      * rewrite (image_unreadable w args image e Hf Hi Hb). settled.
      * rewrite (image_rejected w args e Hf Hi). settled.
Qed.

(** ** Strings *)

Lemma append_assoc a b c : (a ++ b) ++ c = a ++ b ++ c.
Proof. induction a as [|x a IH]; cbn; [reflexivity | now rewrite IH]. Qed.

Lemma prefix_app p s : String.prefix p (p ++ s) = true.
Proof.
  induction p as [|c p IH]; cbn.
  - destruct s; reflexivity.
  - destruct (ascii_dec c c) as [_|n]; [exact IH | now destruct n].
Qed.

Lemma contains_prefix p s : String.prefix p s = true -> Str.contains p s = true.
Proof. intros H. destruct s; cbn [Str.contains]; rewrite H; reflexivity. Qed.

Lemma contains_app p a b : Str.contains p (a ++ p ++ b) = true.
Proof.
  induction a as [|c a IH]; cbn [append].
  - apply contains_prefix, prefix_app.
  - cbn [Str.contains]. rewrite IH. apply orb_true_r.
Qed.

(** A text that opens with a quotation mark does not carry the error marker. *)
Lemma quoted_is_no_error rest : ~ error_text (text_only ("'" ++ rest)).
Proof. intros [message H]. discriminate H. Qed.

(** ** The claims *)

(** C1. No handler propagates a failure: for every input and every outcome of
    the outbound call (success, non-2xx status, network failure, unparseable
    body) the invocation returns normally, and whenever it failed the result
    is a single text item that opens with the error marker. *)
Theorem handlers_convert_failures entry host call w :
  exists r,
    completion_of (handler entry host call w) = Returned r
    /\ (fails host call w = true -> error_text r).
Proof.
  destruct (handler_settles entry host call w) as (r & item & Hr & _ & Hf).
  exists r. split; assumption.
Qed.

Lemma handlers_convert_failures_witness :
  exists r,
    completion_of
      (handler HttpRoute Sample.runtime (GetWeather (Sample.seoul_weather 3))
         (Sample.with_open_meteo (Threw (ErrorObject "fetch failed")) Sample.world))
    = Returned r
    /\ error_text r.
Proof.
  destruct (handlers_convert_failures HttpRoute Sample.runtime
              (GetWeather (Sample.seoul_weather 3))
              (Sample.with_open_meteo (Threw (ErrorObject "fetch failed")) Sample.world))
    as (r & Hr & Hf).
  exists r. split; [exact Hr | apply Hf; reflexivity].
Defined.

(** C10. Every handler, on every return path, returns a content array of
    exactly one item. *)
Theorem content_is_singleton entry host call w :
  exists r item,
    completion_of (handler entry host call w) = Returned r
    /\ content r = [item].
Proof.
  destruct (handler_settles entry host call w) as (r & item & Hr & Hc & _).
  exists r, item. split; assumption.
Qed.

(** C2. The calculator: dividing by zero gives the fixed error text; every
    other case gives "a operator b = result" with the native IEEE result. *)
Theorem calc_result entry a b o w :
  (divides_by_zero b o = true ->
   calc entry {| calc_a := a; calc_b := b; calc_operator := o |} w
   = ([], Returned (text_only "오류: 0으로 나눌 수 없습니다.")))
  /\ (divides_by_zero b o = false ->
      calc entry {| calc_a := a; calc_b := b; calc_operator := o |} w
      = ([], Returned (text_result entry
           (JsNumber.Number_toString a ++ " " ++ operator_symbol o ++ " "
            ++ JsNumber.Number_toString b ++ " = "
            ++ JsNumber.Number_toString (native o a b))))).
Proof.
  rewrite calc_run. split; intros ->; reflexivity.
Qed.

Lemma calc_result_witness :
  calc HttpRoute {| calc_a := 1; calc_b := -0; calc_operator := Divide |} Sample.world
  = ([], Returned (text_only "오류: 0으로 나눌 수 없습니다."))
  /\ calc StdioServer {| calc_a := 1; calc_b := 3; calc_operator := Divide |} Sample.world
     = ([], Returned (text_result StdioServer "1 / 3 = 0.3333333333333333")).
Proof.
  split.
  - apply (proj1 (calc_result HttpRoute 1 (-0) Divide Sample.world)). reflexivity.
  - apply (proj2 (calc_result StdioServer 1 3 Divide Sample.world)). reflexivity.
Defined.

(** C3. The geocoder: an empty array gives the "no results" text, which is
    not an error; one or more records give the three-line block of the first
    record alone; a non-2xx status gives an error text that contains the
    status. *)
Theorem geocode_outcomes entry w query response :
  nominatim w (geocode_request query) = Returned response ->
  (ok response = true -> json response = Returned (Some []) ->
   completion_of (geocode entry {| geocode_query := query |} w)
   = Returned (text_only ("'" ++ query ++ "'에 대한 검색 결과가 없습니다."))
   /\ ~ error_text (text_only ("'" ++ query ++ "'에 대한 검색 결과가 없습니다.")))
  /\ (forall first others,
        ok response = true -> json response = Returned (Some (first :: others)) ->
        completion_of (geocode entry {| geocode_query := query |} w)
        = Returned (text_result entry
            ("📍 " ++ display_name first ++ Str.LF
             ++ "위도(lat): " ++ lat first ++ Str.LF
             ++ "경도(lon): " ++ lon first)))
  /\ (ok response = false ->
      completion_of (geocode entry {| geocode_query := query |} w)
      = Returned (text_only ("오류: 지오코딩 실패 - API 요청 실패: "
                             ++ Str.decimal (status response)))
      /\ Str.contains (Str.decimal (status response))
           ("오류: 지오코딩 실패 - API 요청 실패: " ++ Str.decimal (status response))
         = true).
Proof.
  intros Hn. split; [|split].
  - intros Hok Hj. split; [|apply quoted_is_no_error].
    rewrite (geocode_no_match entry w query response _ Hn Hok Hj (or_intror eq_refl)).
    reflexivity.
  - intros first others Hok Hj.
    rewrite (geocode_match entry w query response first others Hn Hok Hj).
    cbn [completion_of snd Str.join]. reflexivity.
  - intros Hok. split.
    + rewrite (geocode_status entry w query response Hn Hok). reflexivity.
    + generalize (Str.decimal (status response)) as code. intros code.
      replace code with (code ++ EmptyString) at 2.
      * apply contains_app.
      * induction code; cbn; congruence.
Qed.

Lemma geocode_outcomes_witness :
  completion_of
    (geocode HttpRoute {| geocode_query := "Atlantis" |}
       (Sample.with_nominatim (Returned {| status := 200; json := Returned (Some []) |})
          Sample.world))
  = Returned (text_only "'Atlantis'에 대한 검색 결과가 없습니다.")
  /\ completion_of (geocode StdioServer {| geocode_query := "Seoul" |} Sample.world)
     = Returned (text_result StdioServer
         ("📍 Seoul, South Korea" ++ Str.LF
          ++ "위도(lat): 37.5666791" ++ Str.LF
          ++ "경도(lon): 126.9782914"))
  /\ completion_of
       (geocode HttpRoute {| geocode_query := "Seoul" |}
          (Sample.with_nominatim
             (Returned {| status := 500; json := Threw (ErrorObject "Unexpected token") |})
             Sample.world))
     = Returned (text_only "오류: 지오코딩 실패 - API 요청 실패: 500").
Proof.
  split; [|split].
  - exact (proj1 (proj1 (geocode_outcomes HttpRoute
            (Sample.with_nominatim (Returned {| status := 200; json := Returned (Some []) |})
               Sample.world)
            "Atlantis" _ eq_refl) eq_refl eq_refl)).
  - exact (proj1 (proj2 (geocode_outcomes StdioServer Sample.world "Seoul" _ eq_refl))
             Sample.seoul [Sample.busan] eq_refl eq_refl).
  - exact (proj1 (proj2 (proj2 (geocode_outcomes HttpRoute
            (Sample.with_nominatim
               (Returned {| status := 500; json := Threw (ErrorObject "Unexpected token") |})
               Sample.world)
            "Seoul" _ eq_refl)) eq_refl)).
Defined.

(** C6. Without a credential in the process environment the image handler
    returns at once a single text item that is marked as an error and names
    [HF_TOKEN]; the log of outbound calls is empty. *)
Theorem missing_credential args w :
  HF_TOKEN w = None ->
  exists text,
    generate_image args w = ([], Returned (text_only text))
    /\ Str.starts_with "오류:" text = true
    /\ Str.contains "HF_TOKEN" text = true.
Proof.
  intros Hnone. eexists. split.
  - apply image_no_token. rewrite Hnone. reflexivity.
  - split; reflexivity.
Qed.

Lemma missing_credential_witness :
  exists text,
    generate_image {| image_prompt := "a cat"; image_num_inference_steps := 4 |} Sample.world
    = ([], Returned (text_only text))
    /\ Str.starts_with "오류:" text = true
    /\ Str.contains "HF_TOKEN" text = true.
Proof.
  exact (missing_credential
           {| image_prompt := "a cat"; image_num_inference_steps := 4 |}
           Sample.world eq_refl).
Defined.

(** ** The calendar of the clock handler *)

Section Calendar.

#[local] Open Scope Z_scope.

Lemma day_of_year_range doe :
  0 <= doe < 146097 ->
  let yoe := (doe - doe / 1460 + doe / 36524 - doe / 146096) / 365 in
  0 <= doe - (365 * yoe + yoe / 4 - yoe / 100) <= 365 /\ 0 <= yoe <= 399.
Proof. intros H. cbv zeta. Z.to_euclidean_division_equations; lia. Qed.

Lemma civil_ranges z :
  let '(y, m, d) := JsDate.civil_of_days z in 1 <= m <= 12 /\ 1 <= d <= 31.
Proof.
  unfold JsDate.civil_of_days. cbv beta iota zeta.
  set (doe := (z + 719468) mod 146097).
  assert (Hdoe : 0 <= doe < 146097) by (apply Z.mod_pos_bound; lia).
  pose proof (day_of_year_range doe Hdoe) as Hr. cbv zeta in Hr.
  set (yoe := (doe - doe / 1460 + doe / 36524 - doe / 146096) / 365) in *.
  set (doy := doe - (365 * yoe + yoe / 4 - yoe / 100)) in *.
  clearbody doy.
  destruct ((5 * doy + 2) / 153 <? 10) eqn:C;
    [apply Z.ltb_lt in C | apply Z.ltb_ge in C];
    Z.to_euclidean_division_equations; lia.
Qed.

Lemma civil_year_range z :
  0 <= z < 2932897 ->
  let '(y, m, d) := JsDate.civil_of_days z in 1970 <= y <= 9999.
Proof.
  unfold JsDate.civil_of_days. cbv beta iota zeta. intros Hz.
  set (doe := (z + 719468) mod 146097).
  set (era := (z + 719468) / 146097).
  set (yoe := (doe - doe / 1460 + doe / 36524 - doe / 146096) / 365).
  set (doy := doe - (365 * yoe + yoe / 4 - yoe / 100)).
  set (mp := (5 * doy + 2) / 153).
  destruct (mp <? 10) eqn:C; [apply Z.ltb_lt in C | apply Z.ltb_ge in C].
  - destruct (mp + 3 <=? 2) eqn:C2; [apply Z.leb_le in C2 | apply Z.leb_gt in C2];
      subst mp doy yoe era doe; Z.to_euclidean_division_equations; lia.
  - destruct (mp - 9 <=? 2) eqn:C2; [apply Z.leb_le in C2 | apply Z.leb_gt in C2];
      subst mp doy yoe era doe; Z.to_euclidean_division_equations; lia.
Qed.

(** The date computed for a day number is the date of that day. *)
Lemma civil_round_trip z :
  let '(y, m, d) := JsDate.civil_of_days z in days_from_civil y m d = z.
Proof.
  unfold JsDate.civil_of_days, days_from_civil. cbv beta iota zeta.
  set (doe := (z + 719468) mod 146097).
  set (era := (z + 719468) / 146097).
  assert (Hz : z + 719468 = 146097 * era + doe)
    by (subst era doe; apply Z.div_mod; lia).
  assert (Hdoe : 0 <= doe < 146097) by (apply Z.mod_pos_bound; lia).
  pose proof (day_of_year_range doe Hdoe) as Hr. cbv zeta in Hr.
  set (yoe := (doe - doe / 1460 + doe / 36524 - doe / 146096) / 365) in *.
  set (doy := doe - (365 * yoe + yoe / 4 - yoe / 100)) in *.
  set (mp := (5 * doy + 2) / 153).
  assert (Hmp : 0 <= mp <= 11) by (subst mp; Z.to_euclidean_division_equations; lia).
  assert (Hd : (153 * mp + 2) / 5 <= doy < (153 * (mp + 1) + 2) / 5)
    by (subst mp; Z.to_euclidean_division_equations; lia).
  clearbody era doe.
  destruct (mp <? 10) eqn:C; [apply Z.ltb_lt in C | apply Z.ltb_ge in C].
  - replace (mp + 3 <=? 2) with false by (symmetry; apply Z.leb_gt; lia).
    replace (2 <? mp + 3) with true by (symmetry; apply Z.ltb_lt; lia).
    replace (mp + 3 - 3) with mp by lia.
    replace ((yoe + era * 400) / 400) with era
      by (Z.to_euclidean_division_equations; lia).
    replace ((yoe + era * 400) mod 400) with yoe
      by (Z.to_euclidean_division_equations; lia).
    subst doy. lia.
  - replace (mp - 9 <=? 2) with true by (symmetry; apply Z.leb_le; lia).
    replace (2 <? mp - 9) with false by (symmetry; apply Z.ltb_ge; lia).
    replace (mp - 9 + 9) with mp by lia.
    replace (yoe + era * 400 + 1 - 1) with (yoe + era * 400) by lia.
    replace ((yoe + era * 400) / 400) with era
      by (Z.to_euclidean_division_equations; lia).
    replace ((yoe + era * 400) mod 400) with yoe
      by (Z.to_euclidean_division_equations; lia).
    subst doy. lia.
Qed.

Lemma digit_is_digit d : 0 <= d <= 9 -> is_digit (JsDate.digit d) = true.
Proof.
  intros H.
  assert (E : d = 0 \/ d = 1 \/ d = 2 \/ d = 3 \/ d = 4 \/ d = 5 \/ d = 6
              \/ d = 7 \/ d = 8 \/ d = 9) by lia.
  repeat (destruct E as [-> | E]; [reflexivity|]). subst d. reflexivity.
Qed.

Lemma pad2_two_digits n : 0 <= n <= 99 -> two_digits (JsDate.pad2 n) = true.
Proof.
  intros H. unfold JsDate.pad2, two_digits.
  rewrite !digit_is_digit; [reflexivity | |];
    Z.to_euclidean_division_equations; lia.
Qed.

Lemma numeric_four_digits y :
  1000 <= y <= 9999 ->
  String.length (JsDate.numeric y) = 4%nat /\ all_digits (JsDate.numeric y) = true.
Proof.
  intros H.
  assert (check :
    forallb (fun k => Nat.eqb (String.length (Str.decimal (N.of_nat k))) 4
                      && all_digits (Str.decimal (N.of_nat k)))
            (seq (10 * 100) (90 * 100)) = true) by (vm_compute; reflexivity).
  rewrite forallb_forall in check.
  assert (Hin : In (Z.to_nat y) (seq (10 * 100) (90 * 100))) by (apply in_seq; lia).
  apply check, andb_prop in Hin. destruct Hin as [len digits].
  unfold JsDate.numeric. rewrite <- Z_nat_N.
  split; [now apply Nat.eqb_eq | exact digits].
Qed.

End Calendar.

(** The fields of an instant: their ranges, and the second they denote. *)
Lemma fields_ranges cycle local :
  let f := JsDate.fields_of cycle local in
  (1 <= JsDate.month f <= 12 /\ 1 <= JsDate.day f <= 31
   /\ 0 <= JsDate.hour f <= 24 /\ 0 <= JsDate.minute f <= 59
   /\ 0 <= JsDate.second f <= 59)
  /\ second_of f = local / 1000.
Proof.
  unfold JsDate.fields_of, second_of. cbv zeta.
  pose proof (civil_ranges (local / 1000 / 86400)) as Hr.
  pose proof (civil_round_trip (local / 1000 / 86400)) as Ht.
  destruct (JsDate.civil_of_days (local / 1000 / 86400)) as [[y m] d].
  cbn [JsDate.year JsDate.month JsDate.day JsDate.hour JsDate.minute JsDate.second].
  rewrite Ht. clear Ht.
  set (secs := local / 1000). clearbody secs.
  assert (Hh : 0 <= secs mod 86400 / 3600 <= 23)
    by (Z.to_euclidean_division_equations; lia).
  split.
  - repeat split; try lia; try (Z.to_euclidean_division_equations; lia);
      destruct cycle; try lia; destruct (secs mod 86400 / 3600 =? 0); lia.
  - assert (Hm : (match cycle with
                  | JsDate.h23 => secs mod 86400 / 3600
                  | JsDate.h24 =>
                      if secs mod 86400 / 3600 =? 0 then 24 else secs mod 86400 / 3600
                  end) mod 24 = secs mod 86400 / 3600).
    { destruct cycle; [apply Z.mod_small; lia|].
      destruct (secs mod 86400 / 3600 =? 0) eqn:E.
      - apply Z.eqb_eq in E. rewrite E. reflexivity.
      - apply Z.mod_small; lia. }
    rewrite Hm. Z.to_euclidean_division_equations; lia.
Qed.

(** C7. For a time zone the runtime knows, the clock handler returns the single
    text "[zone] 현재 시간: " followed by the wall-clock time of the current
    instant in that zone: the year, then month, day, hour, minute and second
    as two-digit fields of a 24-hour clock. *)
Theorem now_layout entry host w zone offset :
  time_zone host zone = Some offset ->
  let f := JsDate.fields_of (hour_cycle host) (clock w + offset (clock w)) in
  now entry host {| now_timezone := zone |} w
  = ([], Returned (text_result entry
        ("[" ++ zone ++ "] 현재 시간: "
         ++ JsDate.numeric (JsDate.year f) ++ ". "
         ++ JsDate.pad2 (JsDate.month f) ++ ". "
         ++ JsDate.pad2 (JsDate.day f) ++ ". "
         ++ JsDate.pad2 (JsDate.hour f) ++ ":"
         ++ JsDate.pad2 (JsDate.minute f) ++ ":"
         ++ JsDate.pad2 (JsDate.second f))))
  /\ second_of f = (clock w + offset (clock w)) / 1000
  /\ (1 <= JsDate.month f <= 12 /\ 1 <= JsDate.day f <= 31
      /\ 0 <= JsDate.hour f <= 24 /\ 0 <= JsDate.minute f <= 59
      /\ 0 <= JsDate.second f <= 59)
  /\ two_digits (JsDate.pad2 (JsDate.month f))
     && two_digits (JsDate.pad2 (JsDate.day f))
     && two_digits (JsDate.pad2 (JsDate.hour f))
     && two_digits (JsDate.pad2 (JsDate.minute f))
     && two_digits (JsDate.pad2 (JsDate.second f)) = true
  /\ (0 <= clock w + offset (clock w) < 253402300800000 ->
      String.length (JsDate.numeric (JsDate.year f)) = 4%nat
      /\ all_digits (JsDate.numeric (JsDate.year f)) = true).
Proof.
  intros Hz f.
  destruct (fields_ranges (hour_cycle host) (clock w + offset (clock w)))
    as [(Hmo & Hd & Hh & Hmi & Hs) Hsec].
  fold f in Hmo, Hd, Hh, Hmi, Hs, Hsec.
  split; [|split; [exact Hsec | split; [tauto | split]]].
  - rewrite (now_known entry host w zone offset Hz). reflexivity.
  - rewrite !pad2_two_digits by lia. reflexivity.
  - intros Hrange. apply numeric_four_digits.
    subst f. unfold JsDate.fields_of.
    pose proof (civil_year_range ((clock w + offset (clock w)) / 1000 / 86400)) as Hy.
    destruct (JsDate.civil_of_days ((clock w + offset (clock w)) / 1000 / 86400))
      as [[y m] d].
    cbn [JsDate.year]. 
    assert (1970 <= y <= 9999) by (apply Hy; Z.to_euclidean_division_equations; lia).
    lia.
Qed.

Lemma now_layout_witness :
  now HttpRoute Sample.runtime {| now_timezone := "Asia/Seoul" |} Sample.world
  = ([], Returned (text_only "[Asia/Seoul] 현재 시간: 2024. 01. 15. 21:00:00"))
  /\ String.length
       (JsDate.numeric
          (JsDate.year (JsDate.fields_of JsDate.h23 (1705320000000 + 32400000))))
     = 4%nat.
Proof.
  destruct (now_layout HttpRoute Sample.runtime Sample.world "Asia/Seoul"
              (fun _ => 32400000) eq_refl) as (Hrun & _ & _ & _ & Hyear).
  split; [exact Hrun|].
  apply Hyear. cbn. lia.
Defined.

(** ** The weather report *)







(** With a successful upstream response the report is the ten lines of the
    head followed by one daily line for each entry of the upstream
    [daily.time] array, in the order of that array: the line of index [i]
    opens with the date of index [i]. *)
Lemma weather_daily_lines entry args w response data :
  open_meteo w (weather_request args) = Returned response ->
  ok response = true ->
  json response = Returned data ->
  let d := daily data in
  let days := map (daily_line d (daily_units data)) (seq 0 (List.length (d_time d))) in
  completion_of (get_weather entry args w)
  = Returned (text_result entry (Str.join Str.LF (report_head args data ++ days)%list))
  /\ List.length (report_head args data) = 10%nat
  /\ List.length days = List.length (d_time d)
  /\ (forall i date,
        nth_error (d_time d) i = Some date ->
        exists rest, nth_error days i = Some ("  " ++ date ++ " | " ++ rest)).
Proof.
  intros Hn Hok Hj d days.
  split; [|split; [reflexivity | split]].
  - rewrite (weather_report entry w args response data Hn Hok Hj).
    unfold report_lines. rewrite push_daily_map. reflexivity.
  - subst days. now rewrite length_map, length_seq.
  - intros i date Hi. subst days.
    assert (Hlt : (i < List.length (d_time d))%nat)
      by (apply nth_error_Some; congruence).
    eexists.
    rewrite nth_error_map, nth_error_seq.
    destruct (Nat.ltb_spec i (List.length (d_time d))) as [_|Hge]; [|lia].
    cbn [option_map Nat.add]. unfold daily_line, at_index. fold d. rewrite Hi.
    reflexivity.
Qed.

(** ** Validation of [forecast_days] *)

Lemma forecast_days_rejected v :
  in_forecast_range v = false -> forecast_days_schema (Some v) = None.
Proof.
  unfold forecast_days_schema, Zod.default, Zod.optional, Zod.max, Zod.min, Zod.number.
  destruct v as [| |x| |]; cbn [in_forecast_range]; try reflexivity.
  destruct (is_nan x); [reflexivity|].
  destruct (1 <=? x)%float; [|reflexivity].
  cbn [negb andb]. now intros ->.
Qed.

Lemma forecast_days_accepted x :
  in_forecast_range (RawNumber x) = true ->
  forecast_days_schema (Some (RawNumber x)) = Some x.
Proof.
  unfold forecast_days_schema, Zod.default, Zod.optional, Zod.max, Zod.min, Zod.number.
  cbn [in_forecast_range].
  destruct (is_nan x); [discriminate|].
  destruct (1 <=? x)%float; [|discriminate].
  cbn [negb andb]. now intros ->.
Qed.

Lemma registered_get_weather :
  registered "get-weather" registry
  = Some (fun raw => Zod.map GetWeather (weather_schema raw)).
Proof. reflexivity. Qed.

(** C8, as stated: every [forecast_days] that is not an integer between 1 and
    16 would be refused.  The schema has no integer check: 2.5 is accepted
    and reaches the handler. *)
Lemma fractional_forecast_days_accepted :
  ~ (forall entry host rawArgs w v,
        raw_property "forecast_days" rawArgs = Some v ->
        integer_1_to_16 v = false ->
        exists fields,
          dispatch entry host "get-weather" rawArgs w = inl (InvalidArguments fields)).
Proof.
  intros claim.
  destruct (claim HttpRoute Sample.runtime
              (Sample.weather_raw (Some (RawNumber 2.5))) Sample.world
              (RawNumber 2.5) eq_refl eq_refl) as (fields & Hd).
  vm_compute in Hd. discriminate Hd.
Qed.

(** C8, amended. Dispatch of [get-weather] fails with [InvalidArguments],
    without running the handler, for every [forecast_days] that is present
    and is not a number between 1 and 16; a number in that range is passed
    on as it is, integer or not; when the argument is omitted the handler
    receives the default 3. *)
Theorem forecast_days_validation entry host rawArgs w :
  (forall v,
      raw_property "forecast_days" rawArgs = Some v ->
      in_forecast_range v = false ->
      exists fields,
        dispatch entry host "get-weather" rawArgs w = inl (InvalidArguments fields)
        /\ In "forecast_days" fields)
  /\ (forall latitude longitude,
        Zod.field "latitude" Zod.number rawArgs = inr latitude ->
        Zod.field "longitude" Zod.number rawArgs = inr longitude ->
        (forall x,
            raw_property "forecast_days" rawArgs = Some (RawNumber x) ->
            in_forecast_range (RawNumber x) = true ->
            dispatch entry host "get-weather" rawArgs w
            = inr (get_weather entry
                     {| weather_latitude := latitude;
                        weather_longitude := longitude;
                        weather_forecast_days := x |} w))
        /\ (raw_property "forecast_days" rawArgs = None ->
            dispatch entry host "get-weather" rawArgs w
            = inr (get_weather entry
                     {| weather_latitude := latitude;
                        weather_longitude := longitude;
                        weather_forecast_days := 3 |} w))).
Proof.
  unfold dispatch. rewrite registered_get_weather. unfold weather_schema.
  split.
  - intros v Hv Hr. unfold Zod.field at 3. rewrite Hv, (forecast_days_rejected v Hr).
    destruct (Zod.field "latitude" Zod.number rawArgs) as [i|lat],
             (Zod.field "longitude" Zod.number rawArgs) as [j|lon];
      cbn; eexists; (split; [reflexivity|]); rewrite ?in_app_iff; cbn [In]; tauto.
  - intros latitude longitude -> ->. split.
    + intros x Hx Hr. unfold Zod.field. rewrite Hx, (forecast_days_accepted x Hr).
      reflexivity.
    + intros Hnone. unfold Zod.field. rewrite Hnone. reflexivity.
Qed.

Lemma forecast_days_validation_witness :
  (exists fields,
      dispatch HttpRoute Sample.runtime "get-weather"
        (Sample.weather_raw (Some (RawNumber 17))) Sample.world
      = inl (InvalidArguments fields)
      /\ In "forecast_days" fields)
  /\ dispatch HttpRoute Sample.runtime "get-weather"
       (Sample.weather_raw (Some (RawNumber 2.5))) Sample.world
     = inr (get_weather HttpRoute (Sample.seoul_weather 2.5) Sample.world)
  /\ dispatch HttpRoute Sample.runtime "get-weather" (Sample.weather_raw None) Sample.world
     = inr (get_weather HttpRoute (Sample.seoul_weather 3) Sample.world).
Proof.
  split; [|split].
  - exact (proj1 (forecast_days_validation HttpRoute Sample.runtime
                    (Sample.weather_raw (Some (RawNumber 17))) Sample.world)
             (RawNumber 17) eq_refl eq_refl).
  - exact (proj1 (proj2 (forecast_days_validation HttpRoute Sample.runtime
                           (Sample.weather_raw (Some (RawNumber 2.5))) Sample.world)
                    37.5%float 127%float eq_refl eq_refl)
             2.5%float eq_refl eq_refl).
  - exact (proj2 (proj2 (forecast_days_validation HttpRoute Sample.runtime
                           (Sample.weather_raw None) Sample.world)
                    37.5%float 127%float eq_refl eq_refl)
             eq_refl).
Defined.

(** ** Two runs *)

(** C9, as stated: two invocations with the same input and the same upstream
    responses would give the same output.  The clock handler reads the current
    instant: one second later its output differs. *)
Lemma later_clock_other_output :
  ~ (forall entry host call w1 w2,
        same_upstream w1 w2 ->
        completion_of (handler entry host call w1)
        = completion_of (handler entry host call w2)).
Proof.
  intros claim.
  specialize (claim HttpRoute Sample.runtime (Now {| now_timezone := "UTC" |})
                Sample.world (Sample.at_time 1705320001000 Sample.world)).
  assert (Hsame : same_upstream Sample.world (Sample.at_time 1705320001000 Sample.world))
    by (repeat split; reflexivity).
  apply claim in Hsame. vm_compute in Hsame. discriminate Hsame.
Qed.

(** C9, amended. Two invocations with the same input and the same upstream
    responses make the same outbound calls and give the same output, provided
    they also read the same current instant (for now) and the same credential
    (for generate-image). *)
Theorem same_observations_same_run entry host call w1 w2 :
  same_upstream w1 w2 ->
  same_ambient call w1 w2 ->
  handler entry host call w1 = handler entry host call w2.
Proof.
  intros (Hn & Ho & Hi) Ha.
  destruct call as [args|[a b o]|[zone]|args|args|args]; unfold handler;
    cbn [same_ambient] in Ha.
  - unfold_eff. reflexivity.
  - now rewrite !calc_run.
  - destruct (time_zone host zone) as [offset|] eqn:Hz.
    + rewrite !(now_known entry host _ zone offset Hz), Ha. reflexivity.
    + now rewrite !(now_unknown entry host _ zone Hz).
  - unfold_eff. rewrite Hn. repeat case_step; reflexivity.
  - unfold_eff. rewrite Ho. repeat case_step; reflexivity.
  - unfold_eff. rewrite Ha.
    destruct (falsy (HF_TOKEN w2)); [reflexivity|].
    cbv beta. rewrite Hi. repeat case_step; reflexivity.
Qed.

Lemma same_observations_same_run_witness :
  handler StdioServer Sample.runtime (Geocode {| geocode_query := "Seoul" |}) Sample.world
  = handler StdioServer Sample.runtime (Geocode {| geocode_query := "Seoul" |})
      (Sample.with_token (Some "hf_secret") (Sample.at_time 0 Sample.world)).
Proof.
  apply same_observations_same_run.
  - repeat split; reflexivity.
  - exact I.
Defined.


(** * Further properties of the code *)

(** ** Handlers *)

(** X1. In every supported language the greeting is the language's template
    around the name, which is inserted as it is; the fallback to the English
    template is never taken. *)
Theorem greet_frames_name entry name language w :
  greet entry {| greet_name := name; greet_language := language |} w
  = ([], Returned (text_result entry
        (fst (greeting_frame language) ++ name ++ snd (greeting_frame language))))
  /\ property (language_code language) (greetings name)
     = Some (fst (greeting_frame language) ++ name ++ snd (greeting_frame language)).
Proof. destruct language; split; reflexivity. Qed.

(** Every path of every handler, at once. *)
Ltac all_paths :=
  unfold handler, fails, upstream_failed, inference_failed, planned_calls,
    calls_of, completion_of;
  unfold_eff;
  cbn [calc_a calc_b calc_operator now_timezone geocode_query];
  repeat (case_step; cbv beta);
  cbn [fst snd negb orb andb].

Lemma handler_calls entry host call w :
  calls_of (handler entry host call w) = planned_calls call w.
Proof. destruct call as [args|args|args|args|args|args]; all_paths; reflexivity. Qed.

(** X2. No invocation makes more than one outbound call, on any path.  For
    input that is well-formed Unicode the calls are fixed by the input and
    the credential, whatever the upstream answers: none for greet, calc and
    now, one request for geocode and get-weather, and for generate-image one
    inference call when a credential is set and none otherwise.  (A query
    with a lone surrogate makes [encodeURIComponent] throw before the fetch;
    such a string has no UTF-8 encoding.) *)
Theorem calls_are_planned entry host call w :
  (List.length (calls_of (handler entry host call w)) <= 1)%nat
  /\ (well_formed_input call = true ->
      calls_of (handler entry host call w) = planned_calls call w).
Proof.
  split; [|intros _; apply handler_calls]. rewrite handler_calls.
  destruct call; cbn; try lia. destruct (falsy (HF_TOKEN w)); cbn; lia.
Qed.

Lemma calls_are_planned_witness :
  calls_of (handler HttpRoute Sample.runtime (Geocode {| geocode_query := "서울" |})
              Sample.world)
  = [FetchCall (geocode_request "서울")].
Proof.
  exact (proj2 (calls_are_planned HttpRoute Sample.runtime
                  (Geocode {| geocode_query := "서울" |}) Sample.world) eq_refl).
Defined.

(** X3. The two files agree: for the same input and world the handler of
    [src/index.ts] and the handler of [route.ts] make the same calls and
    return the same content.  They differ in [structuredContent] only: the
    route never sets it; the stdio server sets it, to a copy of the content,
    exactly on the greeting, a calculation, the time of a known zone, a
    geocoding match and a weather report, and leaves it out on every error
    text, on the no-results text of the geocoder and on every result of
    generate-image.  (The cases are those of input that is well-formed
    Unicode: on a query with a lone surrogate [encodeURIComponent] throws and
    both files return the error text.) *)
Theorem entries_agree host call w :
  calls_of (handler StdioServer host call w) = calls_of (handler HttpRoute host call w)
  /\ (exists r1 r2,
        completion_of (handler StdioServer host call w) = Returned r1
        /\ completion_of (handler HttpRoute host call w) = Returned r2
        /\ content r1 = content r2
        /\ structuredContent r2 = None
        /\ (well_formed_input call = true ->
            structuredContent r1
            = (if sets_structured host call w then Some (content r1) else None))
        /\ (fails host call w = true -> sets_structured host call w = false)).
Proof.
  split; [now rewrite !handler_calls|].
  assert (paths : exists r1 r2,
    completion_of (handler StdioServer host call w) = Returned r1
    /\ completion_of (handler HttpRoute host call w) = Returned r2
    /\ content r1 = content r2
    /\ structuredContent r2 = None
    /\ (sets_structured host call w = true -> structuredContent r1 = Some (content r1))
    /\ (sets_structured host call w = false -> structuredContent r1 = None)
    /\ (fails host call w = true -> sets_structured host call w = false)).
  { destruct call as [args|args|args|args|args|args];
      unfold sets_structured, divides_by_zero; all_paths;
      do 2 eexists;
      (split; [reflexivity|]); (split; [reflexivity|]); (split; [reflexivity|]);
      (split; [reflexivity|]);
      (split; [first [discriminate | reflexivity]|]);
      (split; first [discriminate | reflexivity]). }
  destruct paths as (r1 & r2 & H1 & H2 & Hc & Hn & Hset & Hunset & Hfail).
  exists r1, r2. repeat (split; [assumption|]). split; [intros _|assumption].
  destruct (sets_structured host call w); [now apply Hset | now apply Hunset].
Qed.

Lemma entries_agree_witness :
  exists r1,
    completion_of (handler StdioServer Sample.runtime
                     (Geocode {| geocode_query := "서울" |}) Sample.world)
    = Returned r1
    /\ structuredContent r1 = Some (content r1)
    /\ exists r0,
         completion_of (handler StdioServer Sample.runtime
                          (Geocode {| geocode_query := "서울" |})
                          (Sample.with_nominatim
                             (Returned {| status := 200; json := Returned (Some []) |})
                             Sample.world))
         = Returned r0
         /\ structuredContent r0 = None.
Proof.
  destruct (entries_agree Sample.runtime (Geocode {| geocode_query := "서울" |})
              Sample.world) as (_ & r1 & _ & H1 & _ & _ & _ & Hs & _).
  destruct (entries_agree Sample.runtime (Geocode {| geocode_query := "서울" |})
              (Sample.with_nominatim
                 (Returned {| status := 200; json := Returned (Some []) |})
                 Sample.world)) as (_ & r0 & _ & H0 & _ & _ & _ & Hs0 & _).
  exists r1. split; [exact H1|]. split; [exact (Hs eq_refl)|].
  exists r0. split; [exact H0|]. exact (Hs0 eq_refl).
Defined.

(** ** Base64 *)

Lemma sextet_checked n :
  (n < 64)%N ->
  sextet_value (Base64.sextet n) = Some n
  /\ Ascii.eqb (Base64.sextet n) "=" = false.
Proof.
  intros Hn.
  assert (check :
    forallb (fun k => match sextet_value (Base64.sextet (N.of_nat k)) with
                      | Some v => N.eqb v (N.of_nat k)
                      | None => false
                      end
                      && negb (Ascii.eqb (Base64.sextet (N.of_nat k)) "="))
            (seq 0 64) = true) by (vm_compute; reflexivity).
  rewrite forallb_forall in check.
  assert (Hin : In (N.to_nat n) (seq 0 64)) by (apply in_seq; lia).
  apply check in Hin. rewrite N2Nat.id in Hin.
  apply andb_prop in Hin. destruct Hin as [Hv Hp].
  destruct (sextet_value (Base64.sextet n)) as [v|]; [|discriminate].
  apply N.eqb_eq in Hv. subst v. split; [reflexivity|].
  now apply negb_true_iff.
Qed.

Lemma sextet_value_sextet n : (n < 64)%N -> sextet_value (Base64.sextet n) = Some n.
Proof. intros Hn. apply (sextet_checked n Hn). Qed.

Lemma sextet_is_no_padding n : (n < 64)%N -> Ascii.eqb (Base64.sextet n) "=" = false.
Proof. intros Hn. apply (sextet_checked n Hn). Qed.

Ltac sextets :=
  rewrite ?sextet_value_sextet, ?sextet_is_no_padding
    by (zify; Z.to_euclidean_division_equations; lia).

Lemma base64_round_trip bytes : base64_decode (Base64.encode bytes) = Some bytes.
Proof.
  assert (H : forall n bs, (List.length bs < n)%nat ->
                           base64_decode (Base64.encode bs) = Some bs).
  { induction n as [|n IH]; intros bs Hlen; [lia|].
    destruct bs as [|a [|b [|c rest]]].
    - reflexivity.
    - pose proof (Byte.to_N_bounded a) as Ha.
      cbn [Base64.encode Base64.chars string_of_list_ascii base64_decode].
      sextets. cbn [Ascii.eqb Bool.eqb andb bytes_of fold_right].
      replace (Byte.to_N a / 4 * 4 + Byte.to_N a mod 4 * 16 / 16)%N with (Byte.to_N a)
        by (zify; Z.to_euclidean_division_equations; lia).
      now rewrite Byte.of_to_N.
    - pose proof (Byte.to_N_bounded a) as Ha. pose proof (Byte.to_N_bounded b) as Hb.
      cbn [Base64.encode Base64.chars string_of_list_ascii base64_decode].
      sextets. cbn [Ascii.eqb Bool.eqb andb bytes_of fold_right].
      replace (Byte.to_N a / 4 * 4 + (Byte.to_N a mod 4 * 16 + Byte.to_N b / 16) / 16)%N
        with (Byte.to_N a) by (zify; Z.to_euclidean_division_equations; lia).
      replace ((Byte.to_N a mod 4 * 16 + Byte.to_N b / 16) mod 16 * 16
               + Byte.to_N b mod 16 * 4 / 4)%N
        with (Byte.to_N b) by (zify; Z.to_euclidean_division_equations; lia).
      now rewrite !Byte.of_to_N.
    - pose proof (Byte.to_N_bounded a) as Ha. pose proof (Byte.to_N_bounded b) as Hb.
      pose proof (Byte.to_N_bounded c) as Hc.
      cbn [Base64.encode Base64.chars string_of_list_ascii base64_decode append].
      sextets.
      rewrite (IH rest) by (cbn [List.length] in Hlen; lia).
      cbn [bytes_of fold_right].
      replace (Byte.to_N a / 4 * 4 + (Byte.to_N a mod 4 * 16 + Byte.to_N b / 16) / 16)%N
        with (Byte.to_N a) by (zify; Z.to_euclidean_division_equations; lia).
      replace ((Byte.to_N a mod 4 * 16 + Byte.to_N b / 16) mod 16 * 16
               + (Byte.to_N b mod 16 * 4 + Byte.to_N c / 64) / 4)%N
        with (Byte.to_N b) by (zify; Z.to_euclidean_division_equations; lia).
      replace ((Byte.to_N b mod 16 * 4 + Byte.to_N c / 64) mod 4 * 64 + Byte.to_N c mod 64)%N
        with (Byte.to_N c) by (zify; Z.to_euclidean_division_equations; lia).
      now rewrite !Byte.of_to_N. }
  apply (H (S (List.length bytes))). lia.
Qed.

(** X4. When a credential is set, the inference call resolves and its blob
    can be read, the image handler returns exactly one image item, typed
    image/png, whose data is the base64 text of the blob: decoding it gives
    back the bytes the provider sent. *)
Theorem image_data_decodes args w image bytes :
  falsy (HF_TOKEN w) = false ->
  inference w (image_request (str_hole (HF_TOKEN w)) args) = Returned image ->
  arrayBuffer image = Returned bytes ->
  exists data,
    completion_of (generate_image args w)
    = Returned {| content := [ImageItem data "image/png"]; structuredContent := None |}
    /\ base64_decode data = Some bytes.
Proof.
  intros Hf Hi Hb. exists (Base64.encode bytes). split.
  - now rewrite (image_made w args image bytes Hf Hi Hb).
  - apply base64_round_trip.
Qed.

Lemma image_data_decodes_witness :
  exists data,
    completion_of
      (generate_image {| image_prompt := "a cat"; image_num_inference_steps := 4 |}
         (Sample.with_inference
            (Returned {| arrayBuffer := Returned (list_byte_of_string "PNG") |})
            (Sample.with_token (Some "hf_secret") Sample.world)))
    = Returned {| content := [ImageItem data "image/png"]; structuredContent := None |}
    /\ base64_decode data = Some (list_byte_of_string "PNG").
Proof.
  exact (image_data_decodes
           {| image_prompt := "a cat"; image_num_inference_steps := 4 |}
           (Sample.with_inference
              (Returned {| arrayBuffer := Returned (list_byte_of_string "PNG") |})
              (Sample.with_token (Some "hf_secret") Sample.world))
           _ _ eq_refl eq_refl eq_refl).
Defined.

(** X5. The image handler returns an image item exactly when a credential is
    set, the inference call resolves and its blob can be read; on every other
    path its single item is a text, so a failed generation never carries an
    image. *)
Theorem image_only_on_success args w :
  exists r,
    completion_of (generate_image args w) = Returned r
    /\ ((exists data mime, content r = [ImageItem data mime])
        <-> falsy (HF_TOKEN w) = false
            /\ inference_failed
                 (inference w (image_request (str_hole (HF_TOKEN w)) args)) = false)
    /\ ((exists text, content r = [TextItem text])
        <-> ~ (falsy (HF_TOKEN w) = false
               /\ inference_failed
                    (inference w (image_request (str_hole (HF_TOKEN w)) args)) = false)).
Proof.
  all_paths; eexists; (split; [reflexivity|]); cbn [content image_result text_only];
    split; split;
    try (intros (x & y & H); discriminate H);
    try (intros (x & H); discriminate H);
    try (intros [H1 H2]; discriminate);
    try (intros _; do 2 eexists; reflexivity);
    try (intros _; eexists; reflexivity);
    try (intros _ [H1 H2]; discriminate);
    try (intros H; exfalso; apply H; split; reflexivity);
    try (split; reflexivity).
Qed.

(** ** The request of the geocoder *)

(** What [encodeURIComponent] writes for one character. *)
Lemma encode_step c s :
  Uri.encodeURIComponent (String c s)
  = (if Uri.unreserved c then String c EmptyString else Uri.escape c)
    ++ Uri.encodeURIComponent s.
Proof. reflexivity. Qed.

Ltac every_character c :=
  destruct c as [[] [] [] [] [] [] [] []].

Lemma decode_step c rest :
  percent_decode
    ((if Uri.unreserved c then String c EmptyString else Uri.escape c) ++ rest)
  = option_map (String c) (percent_decode rest).
Proof.
  every_character c; cbv -[percent_decode option_map];
    cbn [percent_decode]; cbv -[percent_decode option_map];
    destruct (percent_decode rest); reflexivity.
Qed.

Lemma percent_round_trip s : percent_decode (Uri.encodeURIComponent s) = Some s.
Proof.
  induction s as [|c s IH]; [reflexivity|].
  now rewrite encode_step, decode_step, IH.
Qed.

Lemma count_char_app c a b :
  count_char c (a ++ b) = (count_char c a + count_char c b)%nat.
Proof. induction a as [|x a IH]; cbn; [reflexivity | rewrite IH; lia]. Qed.

(** A character that is neither unreserved nor the percent sign is never
    written by [encodeURIComponent]. *)
Lemma encoded_char_safe r c :
  Uri.unreserved r = false -> Ascii.eqb r "%" = false ->
  count_char r (if Uri.unreserved c then String c EmptyString else Uri.escape c) = O.
Proof.
  intros Hr Hp.
  assert (check :
    forallb (fun x => Uri.unreserved x || Ascii.eqb x "%")
      (list_ascii_of_string
         (if Uri.unreserved c then String c EmptyString else Uri.escape c))
    = true) by (every_character c; vm_compute; reflexivity).
  induction (if Uri.unreserved c then String c EmptyString else Uri.escape c)
    as [|x s IH]; [reflexivity|].
  cbn [list_ascii_of_string forallb] in check.
  apply andb_prop in check. destruct check as [Hx Hs].
  cbn [count_char]. rewrite (IH Hs).
  destruct (Ascii.eqb_spec x r) as [->|_]; [|reflexivity].
  rewrite Hr, Hp in Hx. discriminate Hx.
Qed.

Lemma encoded_safe r s :
  Uri.unreserved r = false -> Ascii.eqb r "%" = false ->
  count_char r (Uri.encodeURIComponent s) = O.
Proof.
  intros Hr Hp. induction s as [|c s IH]; [reflexivity|].
  now rewrite encode_step, count_char_app, (encoded_char_safe r c Hr Hp), IH.
Qed.

(** X6. The request of the geocoder: one GET to the fixed search endpoint,
    identified by the User-Agent header.  The query travels percent-encoded
    in the [q] parameter, from which it decodes back exactly; whatever the
    query contains, the URL keeps its single [?], its three [&] and no [#],
    so a query cannot add, cut or end parameters. *)
Theorem geocode_request_is_well_formed query :
  exists q,
    geocode_request query
    = {| url := "https://nominatim.openstreetmap.org/search?q=" ++ q
                ++ "&format=json&limit=1&addressdetails=1";
         headers := [("User-Agent", "MCP-Geocode-Tool/1.0")] |}
    /\ percent_decode q = Some query
    /\ count_char "?" (url (geocode_request query)) = 1%nat
    /\ count_char "&" (url (geocode_request query)) = 3%nat
    /\ count_char "#" (url (geocode_request query)) = 0%nat
    /\ count_char " " (url (geocode_request query)) = 0%nat.
Proof.
  exists (Uri.encodeURIComponent query).
  split; [reflexivity|]. split; [apply percent_round_trip|].
  unfold geocode_request. cbn [url].
  rewrite !count_char_app, !encoded_safe by reflexivity.
  repeat split.
Qed.

(** ** Daily arrays of unequal lengths *)

Lemma report_line args data i :
  (i < List.length (d_time (daily data)))%nat ->
  nth_error (report_lines args data) (10 + i)
  = Some (daily_line (daily data) (daily_units data) i).
Proof.
  intros Hi. unfold report_lines. rewrite push_daily_map.
  rewrite nth_error_app2 by (cbn [report_head List.length]; lia).
  replace (10 + i - List.length (report_head args data))%nat with i
    by (cbn [report_head List.length]; lia).
  rewrite nth_error_map, nth_error_seq.
  destruct (Nat.ltb_spec i (List.length (d_time (daily data)))) as [_|Hge]; [|lia].
  reflexivity.
Qed.

(** X7. The loop runs over [daily.time] and reads the other daily arrays at
    the same index without a bounds check.  Where the code array is shorter
    than the time array the line is still printed, with the code shown as
    "알 수 없음 (undefined)"; the handler neither fails nor drops the day. *)
Theorem short_code_array_prints_undefined entry args w response data i date :
  open_meteo w (weather_request args) = Returned response ->
  ok response = true ->
  json response = Returned data ->
  nth_error (d_time (daily data)) i = Some date ->
  nth_error (d_weather_code (daily data)) i = None ->
  completion_of (get_weather entry args w)
  = Returned (text_result entry (Str.join Str.LF (report_lines args data)))
  /\ exists rest,
       nth_error (report_lines args data) (10 + i)
       = Some ("  " ++ date ++ " | 알 수 없음 (undefined) | " ++ rest).
Proof.
  intros Hn Hok Hj Hdate Hcode. split.
  - now rewrite (weather_report entry w args response data Hn Hok Hj).
  - assert (Hi : (i < List.length (d_time (daily data)))%nat)
      by (apply nth_error_Some; congruence).
    eexists. rewrite (report_line args data i Hi).
    unfold daily_line, at_index. rewrite Hdate, Hcode.
    change (getWeatherDesc None) with "알 수 없음 (undefined)".
    cbn [str_hole]. reflexivity.
Qed.

Lemma short_code_array_prints_undefined_witness :
  exists rest,
    nth_error
      (report_lines (Sample.seoul_weather 3) Sample.no_codes) 11
    = Some ("  2024-01-16 | 알 수 없음 (undefined) | " ++ rest).
Proof.
  exact (proj2 (short_code_array_prints_undefined HttpRoute (Sample.seoul_weather 3)
                  (Sample.with_open_meteo
                     (Returned {| status := 200; json := Returned Sample.no_codes |})
                     Sample.world)
                  _ Sample.no_codes 1 "2024-01-16"
                  eq_refl eq_refl eq_refl eq_refl eq_refl)).
Defined.

(** ** Input schemas *)

Lemma number_is_no_nan v x : Zod.number v = Some x -> PrimFloat.is_nan x = false.
Proof.
  unfold Zod.number. destruct v as [[| |y| |]|]; try discriminate.
  destruct (PrimFloat.is_nan y) eqn:E; [discriminate|]. now intros [= <-].
Qed.

Lemma bounded_number lo hi d v x :
  between lo hi d = true ->
  Zod.default d (Zod.optional (Zod.max hi (Zod.min lo Zod.number))) v = Some x ->
  between lo hi x = true.
Proof.
  intros Hd. unfold Zod.default, Zod.optional, Zod.max, Zod.min, between.
  destruct v as [r|]; [|now intros [= <-]].
  destruct (Zod.number (Some r)) as [y|]; [|discriminate].
  destruct (lo <=? y)%float eqn:Hlo; [|discriminate].
  destruct (y <=? hi)%float eqn:Hhi; [|discriminate].
  intros [= <-]. now rewrite Hlo, Hhi.
Qed.

Ltac parse_cases H :=
  repeat match type of H with
  | context [match ?x with _ => _ end] =>
      lazymatch x with
      | context [match _ with _ => _ end] => fail
      | _ => destruct x eqn:?
      end
  end.

(** X8. Whatever raw arguments arrive, a registered input schema only lets
    through an invocation of the tool it is registered for, with arguments in
    the declared domain: numbers that are not NaN, [forecast_days] between 1
    and 16, [num_inference_steps] between 1 and 10 (languages and operators
    are in their enumerations by type). *)
Theorem schemas_keep_the_domain name inputSchema rawArgs call :
  registered name registry = Some inputSchema ->
  inputSchema rawArgs = inr call ->
  tool_name call = name /\ in_domain call = true.
Proof.
  unfold registry, registered. intros Hreg Hparse.
  repeat match type of Hreg with
  | context [String.eqb ?k name] =>
      destruct (String.eqb_spec k name) as [<-|_];
        [injection Hreg as <-; cbv beta in Hparse|]
  end; try discriminate Hreg.
  - unfold greet_schema, Zod.map, Zod.and_ in Hparse.
    parse_cases Hparse; try discriminate. injection Hparse as <-. now split.
  - unfold calc_schema, Zod.map, Zod.and_, Zod.field in Hparse.
    parse_cases Hparse; try discriminate. injection Hparse as <-.
    split; [reflexivity|]. cbn [in_domain calc_a calc_b].
    repeat match goal with
    | E : Zod.number _ = Some _ |- _ => apply number_is_no_nan in E; rewrite E
    end.
    reflexivity.
  - unfold now_schema, Zod.map in Hparse.
    parse_cases Hparse; try discriminate. injection Hparse as <-. now split.
  - unfold geocode_schema, Zod.map in Hparse.
    parse_cases Hparse; try discriminate. injection Hparse as <-. now split.
  - unfold weather_schema, Zod.map, Zod.and_, Zod.field in Hparse.
    parse_cases Hparse; try discriminate. injection Hparse as <-.
    split; [reflexivity|].
    cbn [in_domain weather_latitude weather_longitude weather_forecast_days].
    repeat match goal with
    | E : Zod.number _ = Some _ |- _ => apply number_is_no_nan in E; rewrite E
    | E : forecast_days_schema _ = Some _ |- _ =>
        apply (bounded_number 1 16 3 _ _ eq_refl) in E; rewrite E
    end.
    reflexivity.
  - unfold image_schema, Zod.map, Zod.and_, Zod.field in Hparse.
    parse_cases Hparse; try discriminate. injection Hparse as <-.
    split; [reflexivity|]. cbn [in_domain image_num_inference_steps].
    repeat match goal with
    | E : num_inference_steps_schema _ = Some _ |- _ =>
        apply (bounded_number 1 10 4 _ _ eq_refl) in E; rewrite E
    end.
    reflexivity.
Qed.

Lemma schemas_keep_the_domain_witness :
  tool_name (GetWeather (Sample.seoul_weather 3)) = "get-weather"
  /\ in_domain (GetWeather (Sample.seoul_weather 3)) = true.
Proof.
  exact (schemas_keep_the_domain "get-weather" _ (Sample.weather_raw None) _
           eq_refl eq_refl).
Defined.

(** X9. An optional argument that is omitted takes its declared default
    before the handler sees it: language en, timezone UTC, 3 forecast days, 4
    inference steps.  An explicit null is not an omission: for each of the
    four optional arguments it is rejected with the field's name. *)
Theorem omitted_optionals_take_defaults rawArgs :
  (raw_property "language" rawArgs = None ->
   forall args, greet_schema rawArgs = inr args -> greet_language args = en)
  /\ (raw_property "timezone" rawArgs = None ->
      now_schema rawArgs = inr {| now_timezone := "UTC" |})
  /\ (raw_property "forecast_days" rawArgs = None ->
      forall args, weather_schema rawArgs = inr args ->
                   weather_forecast_days args = 3%float)
  /\ (raw_property "num_inference_steps" rawArgs = None ->
      forall args, image_schema rawArgs = inr args ->
                   image_num_inference_steps args = 4%float)
  /\ (raw_property "timezone" rawArgs = Some RawNull ->
      now_schema rawArgs = inl ["timezone"])
  /\ (raw_property "language" rawArgs = Some RawNull ->
      exists fields, greet_schema rawArgs = inl fields /\ In "language" fields)
  /\ (raw_property "forecast_days" rawArgs = Some RawNull ->
      exists fields,
        weather_schema rawArgs = inl fields /\ In "forecast_days" fields)
  /\ (raw_property "num_inference_steps" rawArgs = Some RawNull ->
      exists fields,
        image_schema rawArgs = inl fields /\ In "num_inference_steps" fields).
Proof.
  repeat split.
  - intros Hnone args. unfold greet_schema, Zod.map, Zod.and_, Zod.field.
    rewrite Hnone. cbn. destruct (Zod.string_ _); [|discriminate].
    now intros [= <-].
  - intros Hnone. unfold now_schema, Zod.map, Zod.field. now rewrite Hnone.
  - intros Hnone args. unfold weather_schema, Zod.map, Zod.and_, Zod.field.
    rewrite Hnone. cbn. destruct (Zod.number _); destruct (Zod.number _);
      try discriminate. now intros [= <-].
  - intros Hnone args. unfold image_schema, Zod.map, Zod.and_, Zod.field.
    rewrite Hnone. cbn. destruct (Zod.string_ _); [|discriminate].
    now intros [= <-].
  - intros Hnull. unfold now_schema, Zod.map, Zod.field. now rewrite Hnull.
  - intros Hnull. unfold greet_schema, Zod.map, Zod.and_, Zod.field.
    rewrite Hnull. cbn. destruct (Zod.string_ _); eexists; split;
      try reflexivity; rewrite ?in_app_iff; cbn [In]; tauto.
  - intros Hnull. unfold weather_schema, Zod.map, Zod.and_, Zod.field.
    rewrite Hnull. cbn. destruct (Zod.number _); destruct (Zod.number _);
      eexists; split; try reflexivity; rewrite ?in_app_iff; cbn [In]; tauto.
  - intros Hnull. unfold image_schema, Zod.map, Zod.and_, Zod.field.
    rewrite Hnull. cbn. destruct (Zod.string_ _); eexists; split;
      try reflexivity; rewrite ?in_app_iff; cbn [In]; tauto.
Qed.

Lemma omitted_optionals_take_defaults_witness :
  now_schema [] = inr {| now_timezone := "UTC" |}
  /\ now_schema [("timezone", RawNull)] = inl ["timezone"]
  /\ weather_forecast_days (Sample.seoul_weather 3) = 3%float
  /\ (exists fields,
        weather_schema (Sample.weather_raw (Some RawNull)) = inl fields
        /\ In "forecast_days" fields)
  /\ (exists fields,
        image_schema [("prompt", RawString "a cat"); ("num_inference_steps", RawNull)]
        = inl fields
        /\ In "num_inference_steps" fields).
Proof.
  split; [|split; [|split; [|split]]].
  - exact (proj1 (proj2 (omitted_optionals_take_defaults [])) eq_refl).
  - exact (proj1 (proj2 (proj2 (proj2 (proj2
             (omitted_optionals_take_defaults [("timezone", RawNull)]))))) eq_refl).
  - exact (proj1 (proj2 (proj2 (omitted_optionals_take_defaults (Sample.weather_raw None))))
             eq_refl (Sample.seoul_weather 3) eq_refl).
  - exact (proj1 (proj2 (proj2 (proj2 (proj2 (proj2 (proj2
             (omitted_optionals_take_defaults (Sample.weather_raw (Some RawNull)))))))))
             eq_refl).
  - exact (proj2 (proj2 (proj2 (proj2 (proj2 (proj2 (proj2
             (omitted_optionals_take_defaults
                [("prompt", RawString "a cat"); ("num_inference_steps", RawNull)])))))))
             eq_refl).
Defined.

(** X10. A required argument that is missing is refused with an issue that
    names it, and the issues of all offending fields are reported together:
    without any argument calc reports a, b and operator. *)
Theorem missing_required_is_reported rawArgs :
  (forall key schema,
      In (key, schema)
         [ ("name", fun raw => Zod.map Greet (greet_schema raw));
           ("a", fun raw => Zod.map Calc (calc_schema raw));
           ("b", fun raw => Zod.map Calc (calc_schema raw));
           ("operator", fun raw => Zod.map Calc (calc_schema raw));
           ("query", fun raw => Zod.map Geocode (geocode_schema raw));
           ("latitude", fun raw => Zod.map GetWeather (weather_schema raw));
           ("longitude", fun raw => Zod.map GetWeather (weather_schema raw));
           ("prompt", fun raw => Zod.map GenerateImage (image_schema raw)) ] ->
      raw_property key rawArgs = None ->
      exists fields, schema rawArgs = inl fields /\ In key fields)
  /\ calc_schema [] = inl ["a"; "b"; "operator"].
Proof.
  split; [|reflexivity].
  intros key schema Hin Hnone. cbn [In] in Hin.
  repeat (destruct Hin as [[= <- <-]|Hin]); try contradiction;
    unfold greet_schema, calc_schema, geocode_schema, weather_schema, image_schema,
      Zod.map, Zod.and_, Zod.field;
    rewrite Hnone; cbn [Zod.string_ Zod.number Zod.enum];
    repeat case_step; eexists; (split; [reflexivity|]);
    rewrite ?in_app_iff; cbn [In]; tauto.
Qed.

Lemma missing_required_is_reported_witness :
  exists fields,
    Zod.map Geocode (geocode_schema [("q", RawString "Seoul")]) = inl fields
    /\ In "query" fields.
Proof.
  apply (proj1 (missing_required_is_reported [("q", RawString "Seoul")])
           "query" (fun raw => Zod.map Geocode (geocode_schema raw))).
  - cbn. tauto.
  - reflexivity.
Defined.

(** ** The server-info resource *)

(** X11. The uptime of the resource: while the clock has not been set back
    since the module was loaded, hours, minutes and seconds are natural
    numbers, minutes and seconds stay below 60, and together they are the
    whole seconds elapsed.  After a backward step of the clock the hours are
    negative. *)
Theorem uptime_decomposes startTime now :
  let '(hours, minutes, seconds) := uptime startTime now in
  (startTime <= now ->
   0 <= hours /\ 0 <= minutes < 60 /\ 0 <= seconds < 60
   /\ hours * 3600 + minutes * 60 + seconds = (now - startTime) / 1000)
  /\ (now < startTime -> hours < 0).
Proof.
  unfold uptime. cbv beta iota zeta. split.
  - intros Hle.
    assert (Hs : 0 <= (now - startTime) / 1000) by (apply Z.div_pos; lia).
    set (secs := (now - startTime) / 1000) in *. clearbody secs.
    rewrite !Z.rem_mod_nonneg by lia.
    Z.to_euclidean_division_equations; lia.
  - intros Hlt. Z.to_euclidean_division_equations; lia.
Qed.

Lemma uptime_decomposes_witness :
  uptime 1705320000000 1705323725999 = (1, 2, 5)
  /\ 1 * 3600 + 2 * 60 + 5 = (1705323725999 - 1705320000000) / 1000.
Proof.
  split; [reflexivity|].
  pose proof (uptime_decomposes 1705320000000 1705323725999) as H.
  change (uptime 1705320000000 1705323725999) with (1, 2, 5) in H.
  apply (proj1 H). discriminate.
Defined.

(** X12. The resource describes exactly the registered tools: its literal
    list has one description per registration, in the order of registration,
    each opening with the name the tool is registered under. *)
Theorem resource_lists_registered_tools :
  map (described_tool EmptyString) tool_descriptions = map fst registry
  /\ forall process startTime href now stamp,
       exists text,
         server_info process startTime href now stamp
         = {| contents :=
                [ {| r_uri := href; r_mimeType := "application/json"; r_text := text |} ] |}.
Proof.
  split; [vm_compute; reflexivity|].
  intros process startTime href now stamp. unfold server_info.
  destruct (uptime startTime now) as [[hours minutes] seconds].
  eexists. reflexivity.
Qed.

(** ** The code-review prompt *)

Lemma length_append a b : String.length (a ++ b) = (String.length a + String.length b)%nat.
Proof. induction a as [|c a IH]; cbn; [reflexivity | now rewrite IH]. Qed.

Lemma append_inv_head p a b : p ++ a = p ++ b -> a = b.
Proof. induction p as [|c p IH]; cbn; [auto | intros [= H]; auto]. Qed.

Lemma append_inv_tail s a b : a ++ s = b ++ s -> a = b.
Proof.
  revert b. induction a as [|c a IH]; intros [|d b] H; cbn in H.
  - reflexivity.
  - apply (f_equal String.length) in H. cbn in H. rewrite length_append in H. lia.
  - apply (f_equal String.length) in H. cbn in H. rewrite length_append in H. lia.
  - injection H as -> H. f_equal. now apply IH.
Qed.

Lemma join_app sep a b :
  a <> [] -> b <> [] ->
  Str.join sep (a ++ b)%list = Str.join sep a ++ sep ++ Str.join sep b.
Proof.
  intros Ha Hb. induction a as [|x a IH]; [contradiction|].
  destruct a as [|y a].
  - cbn. destruct b; [contradiction | reflexivity].
  - change ((x :: y :: a) ++ b)%list with (x :: (y :: a) ++ b)%list.
    change (Str.join sep (x :: (y :: a) ++ b)%list)
      with (x ++ sep ++ Str.join sep ((y :: a) ++ b)%list).
    rewrite IH by discriminate.
    change (Str.join sep (x :: y :: a)) with (x ++ sep ++ Str.join sep (y :: a)).
    now rewrite !append_assoc.
Qed.

(** X13. The code-review prompt is one user message whose text is the fixed
    template with the submitted code inserted as it is, on lines of its own
    between two fence lines; nothing of the code is escaped or dropped, so
    different codes give different prompts. *)
Theorem code_review_embeds_code :
  exists before after,
    (forall code,
        code_review code
        = [ {| role := "user";
               prompt_text := before ++ "```" ++ Str.LF ++ code ++ Str.LF ++ "```" ++ after |} ])
    /\ forall code1 code2, code_review code1 = code_review code2 -> code1 = code2.
Proof.
  exists (Str.join Str.LF (removelast review_head) ++ Str.LF).
  exists (Str.LF ++ Str.join Str.LF (tl review_tail)).
  assert (shape : forall code,
    Str.join Str.LF (review_head ++ [code] ++ review_tail)%list
    = (Str.join Str.LF (removelast review_head) ++ Str.LF) ++ "```" ++ Str.LF ++ code
      ++ Str.LF ++ "```" ++ Str.LF ++ Str.join Str.LF (tl review_tail)).
  { intros code.
    rewrite (join_app Str.LF review_head ([code] ++ review_tail)) by discriminate.
    rewrite (join_app Str.LF [code] review_tail) by discriminate.
    change (Str.join Str.LF [code]) with code.
    replace (Str.join Str.LF review_head)
      with ((Str.join Str.LF (removelast review_head) ++ Str.LF) ++ "```")
      by (vm_compute; reflexivity).
    replace (Str.join Str.LF review_tail)
      with ("```" ++ Str.LF ++ Str.join Str.LF (tl review_tail))
      by (vm_compute; reflexivity).
    now rewrite !append_assoc. }
  split.
  - intros code. unfold code_review. now rewrite shape.
  - intros code1 code2 H.
    apply (f_equal (fun ms => match ms with
                              | m :: _ => prompt_text m
                              | [] => EmptyString
                              end)) in H.
    unfold code_review in H. cbv beta iota delta [prompt_text] in H.
    rewrite !shape in H.
    apply append_inv_head in H.
    change ("```" ++ Str.LF ++ code1 ++ Str.LF ++ "```" ++ Str.LF
            ++ Str.join Str.LF (tl review_tail))
      with (("```" ++ Str.LF) ++ code1 ++ Str.LF ++ "```" ++ Str.LF
            ++ Str.join Str.LF (tl review_tail)) in H.
    change ("```" ++ Str.LF ++ code2 ++ Str.LF ++ "```" ++ Str.LF
            ++ Str.join Str.LF (tl review_tail))
      with (("```" ++ Str.LF) ++ code2 ++ Str.LF ++ "```" ++ Str.LF
            ++ Str.join Str.LF (tl review_tail)) in H.
    apply append_inv_head in H.
    now apply append_inv_tail in H.
Qed.

(** ** Quoting in the resource document *)

Lemma unescape_step c rest :
  unescape (Json.escape c ++ rest) = option_map (String c) (unescape rest).
Proof.
  every_character c; cbv -[unescape option_map];
    cbn [unescape]; cbv -[unescape option_map];
    destruct (unescape rest); reflexivity.
Qed.

Lemma unescape_all s :
  unescape (Json.escape_all s ++ String (ascii_of_nat 34) EmptyString) = Some s.
Proof.
  induction s as [|c s IH]; [reflexivity|].
  cbn [Json.escape_all]. now rewrite append_assoc, unescape_step, IH.
Qed.

(** X14. Every string of the resource document (the runtime's platform,
    architecture and version among them) is written as a JSON string literal
    from which it reads back exactly, whatever characters it holds: quotation
    marks, backslashes and control characters are escaped, so no value can
    close its literal early, and the literal holds no raw line feed. *)
Theorem quoted_strings_read_back s :
  json_unquote (Json.stringify (Json.Str s)) = Some s
  /\ count_char (ascii_of_nat 10) (Json.quote s) = 0%nat.
Proof.
  split.
  - unfold Json.stringify. cbn [Json.serialize]. unfold Json.quote.
    cbn [append json_unquote]. change (N_of_ascii (ascii_of_nat 34) =? 34)%N with true.
    apply unescape_all.
  - unfold Json.quote. rewrite !count_char_app. cbn [count_char Ascii.eqb Bool.eqb].
    assert (H : count_char (ascii_of_nat 10) (Json.escape_all s) = 0%nat).
    { induction s as [|c s IH]; [reflexivity|].
      cbn [Json.escape_all]. rewrite count_char_app, IH.
      every_character c; vm_compute; reflexivity. }
    rewrite H. reflexivity.
Qed.

(** ** The lines of the weather report *)

Lemma one_line_app a b : one_line (a ++ b) = one_line a && one_line b.
Proof.
  unfold one_line. rewrite count_char_app.
  destruct (count_char (ascii_of_nat 10) a), (count_char (ascii_of_nat 10) b); reflexivity.
Qed.

Lemma one_line_cons c s :
  one_line (String c s) = negb (Ascii.eqb c (ascii_of_nat 10)) && one_line s.
Proof.
  unfold one_line. cbn [count_char].
  destruct (Ascii.eqb c (ascii_of_nat 10)); reflexivity.
Qed.

Lemma append_nil_r s : s ++ EmptyString = s.
Proof. induction s as [|c s IH]; cbn; [reflexivity | now rewrite IH]. Qed.

(** A piece without a line feed stays in the line being read. *)
Lemma lines_from_app acc s rest :
  one_line s = true ->
  Str.lines_from acc (s ++ rest) = Str.lines_from (acc ++ s) rest.
Proof.
  revert acc. induction s as [|c s IH]; intros acc Hs.
  - now rewrite append_nil_r.
  - rewrite one_line_cons in Hs. apply andb_prop in Hs. destruct Hs as [Hc Hs].
    apply negb_true_iff in Hc.
    cbn [append Str.lines_from]. rewrite Hc, (IH _ Hs), append_assoc. reflexivity.
Qed.

(** Joining lines with line feeds and splitting at line feeds gives the lines
    back, when no line holds a line feed. *)
Lemma lines_join parts :
  parts <> [] ->
  forallb one_line parts = true ->
  Str.lines (Str.join Str.LF parts) = parts.
Proof.
  unfold Str.lines. intros Hne Hall.
  induction parts as [|s parts IH]; [contradiction|].
  cbn [forallb] in Hall. apply andb_prop in Hall. destruct Hall as [Hs Hall].
  destruct parts as [|t parts].
  - cbn [Str.join]. rewrite <- (append_nil_r s) at 1.
    rewrite (lines_from_app EmptyString s EmptyString Hs). reflexivity.
  - change (Str.join Str.LF (s :: t :: parts))
      with (s ++ Str.LF ++ Str.join Str.LF (t :: parts)).
    rewrite (lines_from_app EmptyString s _ Hs).
    cbn [append Str.LF Str.lines_from]. rewrite Ascii.eqb_refl.
    now rewrite IH.
Qed.

Lemma decimal_one_line n : one_line (Str.decimal n) = true.
Proof.
  unfold Str.decimal. generalize (N.to_uint n) as d.
  induction d; cbn [NilEmpty.string_of_uint]; try reflexivity;
    rewrite one_line_cons, IHd; reflexivity.
Qed.

Lemma repeat_char_one_line n : one_line (Str.repeat_char "0" n) = true.
Proof.
  induction n as [|n IH]; [reflexivity|].
  cbn [Str.repeat_char]. now rewrite one_line_cons, IH.
Qed.

Lemma substring_one_line s : forall n m, one_line s = true -> one_line (substring n m s) = true.
Proof.
  induction s as [|c s IH]; intros n m Hs.
  - destruct n, m; reflexivity.
  - rewrite one_line_cons in Hs. apply andb_prop in Hs. destruct Hs as [Hc Hs].
    destruct n as [|n].
    + destruct m as [|m]; [reflexivity|].
      cbn [substring]. now rewrite one_line_cons, Hc, IH.
    + cbn [substring]. now apply IH.
Qed.

Lemma layout_one_line ds n : one_line ds = true -> one_line (JsNumber.layout ds n) = true.
Proof.
  intros Hds. unfold JsNumber.layout, Str.take, Str.drop.
  repeat case_step;
    rewrite ?one_line_app, ?Hds, ?repeat_char_one_line, ?decimal_one_line,
      ?substring_one_line by exact Hds;
    reflexivity.
Qed.

Lemma number_one_line x : one_line (JsNumber.Number_toString x) = true.
Proof.
  assert (finite : forall m e, one_line (JsNumber.finite_toString m e) = true).
  { intros m e. unfold JsNumber.finite_toString.
    destruct (JsNumber.shortest (Z.pos m) e) as [s0 p0].
    destruct (JsNumber.strip_zeros 20 s0 p0) as [s p].
    apply layout_one_line, decimal_one_line. }
  unfold JsNumber.Number_toString.
  destruct (Prim2SF x) as [[|]|[|]| |[|] m e]; try reflexivity;
    rewrite ?one_line_app, finite; reflexivity.
Qed.

Lemma num_hole_one_line v : one_line (num_hole v) = true.
Proof. destruct v; [apply number_one_line | reflexivity]. Qed.

Lemma property_value key object value :
  property key object = Some value -> In value (map snd object).
Proof.
  induction object as [|[k v] object IH]; [discriminate|].
  cbn [property]. destruct (String.eqb k key).
  - intros [= ->]. now left.
  - intros H. right. now apply IH.
Qed.

Lemma description_one_line code : one_line (getWeatherDesc code) = true.
Proof.
  unfold getWeatherDesc.
  destruct (property (num_hole code) weatherCodes) as [description|] eqn:E.
  - assert (check : forallb one_line (map snd weatherCodes) = true)
      by (vm_compute; reflexivity).
    rewrite forallb_forall in check. apply check. exact (property_value _ _ _ E).
  - rewrite !one_line_app, num_hole_one_line. reflexivity.
Qed.

Lemma str_hole_one_line dates i :
  forallb one_line dates = true -> one_line (str_hole (at_index dates i)) = true.
Proof.
  intros Hall. unfold at_index.
  destruct (nth_error dates i) as [date|] eqn:E; [|reflexivity].
  rewrite forallb_forall in Hall. apply Hall. exact (nth_error_In _ _ E).
Qed.

Ltac pieces :=
  rewrite ?one_line_app, ?number_one_line, ?num_hole_one_line, ?description_one_line;
  repeat match goal with
  | H : one_line _ = true |- _ => rewrite H
  end;
  reflexivity.

(** Every line of the report is one line of text, when the strings of the
    upstream body are. *)
Lemma report_is_line_by_line args data :
  one_line_strings data = true ->
  forallb one_line (report_lines args data) = true.
Proof.
  unfold one_line_strings. intros H.
  repeat (apply andb_prop in H; let Hs := fresh "Hs" in destruct H as [H Hs]).
  unfold report_lines. rewrite push_daily_map, forallb_app. apply andb_true_intro. split.
  - unfold report_head. cbn [forallb]. repeat (apply andb_true_intro; split); pieces.
  - apply forallb_forall. intros line Hin.
    apply in_map_iff in Hin. destruct Hin as (i & <- & _).
    unfold daily_line. rewrite !one_line_app.
    rewrite (str_hole_one_line _ i Hs). pieces.
Qed.

(** C4. With [forecast_days = 3] and a successful upstream response that
    holds the three requested days, the report has exactly three daily lines,
    one per forecast day, in the order of the upstream daily array: the text
    is the ten lines of the head followed by the lines of index 0, 1 and 2,
    each opening with the date of its index; and read line by line (no string
    of the body holding a line feed) the text has exactly these three lines
    after the forecast title. *)
Theorem three_days_three_lines entry args w response data :
  weather_forecast_days args = 3%float ->
  open_meteo w (weather_request args) = Returned response ->
  ok response = true ->
  json response = Returned data ->
  List.length (d_time (daily data)) = 3%nat ->
  let d := daily data in
  let du := daily_units data in
  let days := [daily_line d du 0; daily_line d du 1; daily_line d du 2] in
  let text := Str.join Str.LF (report_head args data ++ days)%list in
  completion_of (get_weather entry args w) = Returned (text_result entry text)
  /\ (forall i date,
        nth_error (d_time d) i = Some date ->
        exists rest, nth_error days i = Some ("  " ++ date ++ " | " ++ rest))
  /\ (one_line_strings data = true ->
      forecast_section text = days /\ List.length (forecast_section text) = 3%nat).
Proof.
  intros _ Hn Hok Hj Hlen d du days text. subst text days du d.
  destruct (weather_daily_lines entry args w response data Hn Hok Hj)
    as (Hrun & _ & _ & Horder).
  cbv zeta in Hrun, Horder. rewrite Hlen in Hrun, Horder.
  split; [exact Hrun | split; [exact Horder|]].
  intros Hone.
  assert (Hlines :
    Str.lines (Str.join Str.LF
                 (report_head args data
                  ++ map (daily_line (daily data) (daily_units data)) (seq 0 3))%list)
    = (report_head args data
       ++ map (daily_line (daily data) (daily_units data)) (seq 0 3))%list).
  { apply lines_join; [discriminate|].
    pose proof (report_is_line_by_line args data Hone) as Hall.
    unfold report_lines in Hall. rewrite push_daily_map, Hlen in Hall. exact Hall. }
  unfold forecast_section.
  change [daily_line (daily data) (daily_units data) 0;
          daily_line (daily data) (daily_units data) 1;
          daily_line (daily data) (daily_units data) 2]
    with (map (daily_line (daily data) (daily_units data)) (seq 0 3)).
  rewrite Hlines. split; reflexivity.
Qed.

Lemma three_days_three_lines_witness :
  let days :=
    [ daily_line (daily Sample.three_days) (daily_units Sample.three_days) 0;
      daily_line (daily Sample.three_days) (daily_units Sample.three_days) 1;
      daily_line (daily Sample.three_days) (daily_units Sample.three_days) 2 ] in
  let text :=
    Str.join Str.LF (report_head (Sample.seoul_weather 3) Sample.three_days ++ days)%list in
  completion_of
    (get_weather HttpRoute (Sample.seoul_weather 3)
       (Sample.with_open_meteo
          (Returned {| status := 200; json := Returned Sample.three_days |})
          Sample.world))
  = Returned (text_result HttpRoute text)
  /\ forecast_section text = days.
Proof.
  intros days text.
  destruct (three_days_three_lines HttpRoute (Sample.seoul_weather 3)
              (Sample.with_open_meteo
                 (Returned {| status := 200; json := Returned Sample.three_days |})
                 Sample.world)
              _ Sample.three_days eq_refl eq_refl eq_refl eq_refl eq_refl)
    as (Hrun & _ & Hlines).
  split; [exact Hrun|].
  apply Hlines. vm_compute. reflexivity.
Defined.

Example three_days_report :
  option_map forecast_section
    (text_of (completion_of
       (get_weather HttpRoute (Sample.seoul_weather 3)
          (Sample.with_open_meteo
             (Returned {| status := 200; json := Returned Sample.three_days |})
             Sample.world))))
  = Some [ "  2024-01-15 | 맑음 ☀️ | -4~3.5C | 강수 0mm (확률 0%) | 최대풍속 12.5km/h";
           "  2024-01-16 | 알 수 없음 (4) | -1.5~5C | 강수 1.25mm (확률 60%) | 최대풍속 9km/h";
           "  2024-01-17 | 약한 비 🌧️ | 0~6.5C | 강수 7.5mm (확률 90%) | 최대풍속 20km/h" ].
Proof. vm_compute. reflexivity. Qed.
